(** * SmartisanOS wallpaper downloader: a shallow embedding of
    [wallpaper_downloader.py] and the properties of its paging, listing and
    download handlers.

    The Qt widgets the handlers write to are fields of the machine state, the
    message boxes and the console are output traces, and the network and the
    file system are oracles handed to the handler that uses them. *)

From stdpp Require Import base numbers option list strings gmap pretty.
From Stdlib Require Import Strings.Ascii Strings.Byte.

Open Scope string_scope.
Open Scope list_scope.
Open Scope Z_scope.

(** ** JSON values and Python's view of them *)

(** The scalar values a field of a wallpaper record holds once
    [response.json()] has decoded it; the numbers of the endpoint are
    integers. *)
Inductive jval : Type :=
| JNull
| JBool (b : bool)
| JInt (n : Z)
| JStr (s : string).

(** One element of the [data] array, a Python dict with string keys, is a
    [gmap string jval]. *)

(** Python truthiness, as used by [if url:] and [if url and wallpaper_id:]. *)
Definition py_truthy (v : jval) : bool :=
  match v with
  | JNull => false
  | JBool b => b
  | JInt n => negb (n =? 0)
  | JStr s => negb (String.eqb s "")
  end.

(** What an f-string prints for a value. *)
Definition py_str (v : jval) : string :=
  match v with
  | JNull => "None"
  | JBool true => "True"
  | JBool false => "False"
  | JInt n => pretty n
  | JStr s => s
  end.

(** [v == 0]; Python's [False] equals [0]. *)
Definition py_eq_zero (v : jval) : bool :=
  match v with
  | JInt n => n =? 0
  | JBool b => negb b
  | _ => false
  end.

(** [d.get(k)] and [d.get(k, dflt)]. *)
Definition dict_get (d : gmap string jval) (k : string) : jval := default JNull (d !! k).
Definition dict_get_or (d : gmap string jval) (k : string) (dflt : jval) : jval :=
  default dflt (d !! k).

(** The decoded body of a listing response, a JSON object
    [{code, msg?, data: [...]}]; a key that is absent is [None] here.  The
    body follows the schema of the endpoint: [data], when present, is an
    array of objects whose fields are scalars. *)
Record api_body : Type := ApiBody {
  body_code : option jval;
  body_msg : option jval;
  body_data : option (list (gmap string jval))
}.

(** [k in d] for a key of the body. *)
Definition has_key {A} (field : option A) : bool :=
  match field with
  | Some _ => true
  | None => false
  end.

(** ** Exceptions *)

(** [RequestsJSONDecodeError] is [requests.exceptions.JSONDecodeError], a
    subclass of both [RequestException] and [json.JSONDecodeError]. *)
Inductive exn : Type :=
| RequestException (e : string)
| RequestsJSONDecodeError (e : string)
| JSONDecodeError (e : string)
| OSError (e : string)
| IndexError.

Inductive result (A : Type) : Type :=
| Ok (a : A)
| Raise (e : exn).
Arguments Ok {A} a.
Arguments Raise {A} e.

(** ** Oracles for the outside world *)

(** The outcome of [requests.get(url, timeout=10)], [raise_for_status()] and
    [response.json()] on the listing endpoint. *)
Inductive api_outcome : Type :=
| ApiTransportError (e : string)
| ApiInvalidJson (by_requests : bool) (e : string)
| ApiJson (body : api_body).

(** The outcome of [requests.get(url, timeout=20)] and [raise_for_status()]
    on an image. *)
Inductive image_outcome : Type :=
| ImageError (e : string)
| ImageContent (content : list byte).

(** How [with open(filename, 'wb') as f: f.write(content)] ends: [open]
    raises an [OSError]; [open] succeeds, which empties the file, and the
    write raises an [OSError] with the first [written] bytes on disk; or the
    whole body is written. *)
Inductive write_outcome : Type :=
| OpenError
| WriteError (written : nat)
| Written.

(** What one run of [start_download] meets: the answer to the request of loop
    index [i] for a URL, how the write of loop index [i] to a file name ends,
    and the file a path names.  Two paths name the same file when [realpath]
    maps them to the same name ([D/a.jpg] and [D/./a.jpg], a path through
    [..], a link); the files on disk are kept under these names. *)
Record download_env : Type := DownloadEnv {
  image_get : Z -> string -> image_outcome;
  open_wb : Z -> string -> write_outcome;
  realpath : string -> string
}.

(** ** The application state *)

Inductive pixmap : Type :=
| Pixmap (data : list byte)
| Scaled (w h : Z) (p : pixmap).

(** What a preview label shows: nothing, a text or a picture. *)
Inductive pic : Type :=
| PicClear
| PicText (t : string)
| PicPixmap (p : pixmap).

(** An [ImageDownloader] thread. *)
Record thread : Type := Thread {
  t_index : Z;
  t_url : jval;
  t_running : bool
}.

Inductive icon : Type := Warning | Critical | Information.

(** A [QMessageBox] shown to the user. *)
Record dialog : Type := Dialog {
  dlg_icon : icon;
  dlg_title : string;
  dlg_text : string
}.

Record machine : Type := Machine {
  (* attributes of the application object *)
  current_page : Z;
  wallpaper_data : list (gmap string jval);
  image_threads : list thread;
  download_path : string;
  (* widgets *)
  sort_combo : string;
  page_label : string;
  pic_labels : list pic;
  name_label : string;
  author_label : string;
  source_label : string;
  desc_label : string;
  location_edit : string;
  (* the outside world; the files on disk are kept under the names
     [realpath] gives them *)
  dialogs : list dialog;
  stdout : list string;
  files : gmap string (list byte)
}.

Definition set_current_page (v : Z) (s : machine) : machine :=
  Machine v (wallpaper_data s) (image_threads s) (download_path s)
    (sort_combo s) (page_label s) (pic_labels s) (name_label s)
    (author_label s) (source_label s) (desc_label s) (location_edit s)
    (dialogs s) (stdout s) (files s).

Definition set_wallpaper_data (v : list (gmap string jval)) (s : machine) : machine :=
  Machine (current_page s) v (image_threads s) (download_path s)
    (sort_combo s) (page_label s) (pic_labels s) (name_label s)
    (author_label s) (source_label s) (desc_label s) (location_edit s)
    (dialogs s) (stdout s) (files s).

Definition set_image_threads (v : list thread) (s : machine) : machine :=
  Machine (current_page s) (wallpaper_data s) v (download_path s)
    (sort_combo s) (page_label s) (pic_labels s) (name_label s)
    (author_label s) (source_label s) (desc_label s) (location_edit s)
    (dialogs s) (stdout s) (files s).

Definition set_download_path (v : string) (s : machine) : machine :=
  Machine (current_page s) (wallpaper_data s) (image_threads s) v
    (sort_combo s) (page_label s) (pic_labels s) (name_label s)
    (author_label s) (source_label s) (desc_label s) (location_edit s)
    (dialogs s) (stdout s) (files s).

Definition set_sort_combo (v : string) (s : machine) : machine :=
  Machine (current_page s) (wallpaper_data s) (image_threads s)
    (download_path s) v (page_label s) (pic_labels s) (name_label s)
    (author_label s) (source_label s) (desc_label s) (location_edit s)
    (dialogs s) (stdout s) (files s).

Definition set_page_label (v : string) (s : machine) : machine :=
  Machine (current_page s) (wallpaper_data s) (image_threads s)
    (download_path s) (sort_combo s) v (pic_labels s) (name_label s)
    (author_label s) (source_label s) (desc_label s) (location_edit s)
    (dialogs s) (stdout s) (files s).

Definition set_pic_labels (v : list pic) (s : machine) : machine :=
  Machine (current_page s) (wallpaper_data s) (image_threads s)
    (download_path s) (sort_combo s) (page_label s) v (name_label s)
    (author_label s) (source_label s) (desc_label s) (location_edit s)
    (dialogs s) (stdout s) (files s).

(** The four texts of the right panel, set together. *)
Definition set_info_labels (name author source desc : string) (s : machine)
  : machine :=
  Machine (current_page s) (wallpaper_data s) (image_threads s)
    (download_path s) (sort_combo s) (page_label s) (pic_labels s) name
    author source desc (location_edit s)
    (dialogs s) (stdout s) (files s).

Definition set_location_edit (v : string) (s : machine) : machine :=
  Machine (current_page s) (wallpaper_data s) (image_threads s)
    (download_path s) (sort_combo s) (page_label s) (pic_labels s)
    (name_label s) (author_label s) (source_label s) (desc_label s) v
    (dialogs s) (stdout s) (files s).

Definition set_dialogs (v : list dialog) (s : machine) : machine :=
  Machine (current_page s) (wallpaper_data s) (image_threads s)
    (download_path s) (sort_combo s) (page_label s) (pic_labels s)
    (name_label s) (author_label s) (source_label s) (desc_label s)
    (location_edit s) v (stdout s) (files s).

Definition set_stdout (v : list string) (s : machine) : machine :=
  Machine (current_page s) (wallpaper_data s) (image_threads s)
    (download_path s) (sort_combo s) (page_label s) (pic_labels s)
    (name_label s) (author_label s) (source_label s) (desc_label s)
    (location_edit s) (dialogs s) v (files s).

Definition set_files (v : gmap string (list byte)) (s : machine) : machine :=
  Machine (current_page s) (wallpaper_data s) (image_threads s)
    (download_path s) (sort_combo s) (page_label s) (pic_labels s)
    (name_label s) (author_label s) (source_label s) (desc_label s)
    (location_edit s) (dialogs s) (stdout s) v.

(** ** A state and exception monad for the handlers *)

(** A handler runs on a machine and either returns or raises; the mutations
    made before an exception stay. *)
Definition M (A : Type) : Type := machine -> result A * machine.

Definition ret {A} (a : A) : M A := fun s => (Ok a, s).

Definition bind {A B} (c : M A) (k : A -> M B) : M B :=
  fun s =>
    match c s with
    | (Ok a, s') => k a s'
    | (Raise e, s') => (Raise e, s')
    end.

Definition raise {A} (e : exn) : M A := fun s => (Raise e, s).

Definition gets {A} (f : machine -> A) : M A := fun s => (Ok (f s), s).

Definition modify (f : machine -> machine) : M unit := fun s => (Ok tt, f s).

Definition lift {A} (r : result A) : M A := fun s => (r, s).

(** [try: body / except ...:]; [handler e] is the suite of the first clause
    that matches [e], if one does. *)
Definition try_except {A} (body : M A) (handler : exn -> option (M A)) : M A :=
  fun s =>
    match body s with
    | (Ok a, s') => (Ok a, s')
    | (Raise e, s') =>
        match handler e with
        | Some h => h s'
        | None => (Raise e, s')
        end
    end.

(** The handlers are written with stdpp's monad notations: [x ← c; k] and
    [c ;; k]. *)
#[global] Instance M_ret : MRet M := @ret.
#[global] Instance M_bind : MBind M := fun A B k c => bind c k.

(** [for x in xs: body x]. *)
Fixpoint for_each {A} (xs : list A) (body : A -> M unit) : M unit :=
  match xs with
  | [] => ret tt
  | x :: xs' => body x ;; for_each xs' body
  end.

(** [for x in xs: acc = body x acc], for a loop that updates a local. *)
Fixpoint for_fold {A B} (xs : list A) (body : A -> B -> M B) (acc : B) : M B :=
  match xs with
  | [] => ret acc
  | x :: xs' => acc' ← body x acc; for_fold xs' body acc'
  end.

(** [range(3)]. *)
Definition range3 : list Z := [0; 1; 2].

(** ** Python lists *)

Definition len {A} (l : list A) : Z := Z.of_nat (length l).

(** The position [l[i]] denotes: a negative index counts from the end. *)
Definition py_index {A} (l : list A) (i : Z) : option nat :=
  let j := if i <? 0 then i + len l else i in
  if (0 <=? j) && (j <? len l) then Some (Z.to_nat j) else None.

Definition py_getitem {A} (l : list A) (i : Z) : result A :=
  match py_index l i with
  | Some k => match l !! k with Some x => Ok x | None => Raise IndexError end
  | None => Raise IndexError
  end.

(** [l[i] = x] on the elements of a list, as [l[i].setText(...)] does. *)
Definition py_setitem {A} (l : list A) (i : Z) (x : A) : result (list A) :=
  match py_index l i with
  | Some k => Ok (<[k := x]> l)
  | None => Raise IndexError
  end.

(** A byte [10xxxxxx], which continues a character in UTF-8. *)
Definition is_continuation (c : ascii) : bool :=
  match c with
  | Ascii _ _ _ _ _ _ b6 b7 => b7 && negb b6
  end.

(** [s[:n]]: the first [n] characters.  A [string] holds the UTF-8 bytes of
    a Python [str], so a character is a byte that is not a continuation byte
    together with the continuation bytes that follow it. *)
Fixpoint py_prefix (n : nat) (s : string) : string :=
  match s with
  | EmptyString => EmptyString
  | String c s' =>
      if is_continuation c then String c (py_prefix n s')
      else match n with
           | O => EmptyString
           | S n' => String c (py_prefix n' s')
           end
  end.

(** [os.path.join(a, b)] as [posixpath] defines it. *)
Definition startswith_sep (s : string) : bool :=
  match s with
  | String "/"%char _ => true
  | _ => false
  end.

Fixpoint endswith_sep (s : string) : bool :=
  match s with
  | EmptyString => false
  | String c EmptyString => Ascii.eqb c "/"%char
  | String _ s' => endswith_sep s'
  end.

Definition os_path_join (a b : string) : string :=
  if startswith_sep b || String.eqb a "" then b
  else if endswith_sep a then a +:+ b
  else a +:+ "/" +:+ b.

Definition newline : string := String "010"%char EmptyString.

(** ** Constants *)

Definition API_URL_format (source : string) : string :=
  "http://wallpaper-api.smartisan.com/app/index.php?r=paperapi/index/list&client_version=2&source="
  +:+ source +:+ "&limit=20&paper_id=0".

Definition SOURCES : list string :=
  [ "Artand"; "Smartisan"; "Unsplash"; "Minimography"; "Pexels";
    "Magdeleine"; "Fancycrave"; "Snapwiresnaps"; "Memento";
    "纹理与材质壁纸"; "壁纸摄影大赛精选" ].

(** ** The handlers of [WallpaperDownloaderApp] *)

Definition message_box (i : icon) (title text : string) : M unit :=
  modify (fun s => set_dialogs (dialogs s ++ [Dialog i title text]) s).

Definition print (line : string) : M unit :=
  modify (fun s => set_stdout (stdout s ++ [line]) s).

(** [self.pic_labels[i].setText(...)] or [.setPixmap(...)]. *)
Definition set_pic (i : Z) (p : pic) : M unit :=
  labels ← gets pic_labels;
  labels' ← lift (py_setitem labels i p);
  modify (set_pic_labels labels').

(** [for label in self.pic_labels: label.setText(t)]. *)
Definition set_all_pics (t : string) : M unit :=
  modify (fun s => set_pic_labels ((fun _ => PicText t) <$> pic_labels s) s).

(** [ImageDownloader(i, url)], connected, appended and started. *)
Definition start_image_downloader (i : Z) (url : jval) : M unit :=
  modify (fun s => set_image_threads (image_threads s ++ [Thread i url true]) s).

Definition is_empty {A} (l : list A) : bool :=
  match l with
  | [] => true
  | _ :: _ => false
  end.

(** The body of the loop of [update_ui] over the three slots, for index [i]. *)
Definition load_slot (start_index : Z) (i : Z) : M unit :=
  data ← gets wallpaper_data;
  let data_index := start_index + i in
  if data_index <? len data then
    wallpaper ← lift (py_getitem data data_index);
    let url := dict_get wallpaper "url" in
    if py_truthy url then
      set_pic i (PicText "加载中...");;
      start_image_downloader i url
    else
      set_pic i (PicText "URL无效")
  else
    set_pic i (PicText "无壁纸").

Definition update_ui (clear : bool) : M unit :=
  page ← gets current_page;
  modify (set_page_label ("第 " +:+ pretty (page + 1) +:+ " 页"));;
  set_all_pics "加载中...";;
  data ← gets wallpaper_data;
  if clear || is_empty data then
    modify (set_info_labels "名称: " "作者: " "来源: " "描述: ");;
    set_all_pics "无数据"
  else
    let start_index := page * 3 in
    (if start_index <? len data then
       first_wallpaper ← lift (py_getitem data start_index);
       source ← gets sort_combo;
       modify (set_info_labels
         ("名称: " +:+ py_str (dict_get_or first_wallpaper "id" (JStr "N/A")))
         ("作者: " +:+ py_str (dict_get_or first_wallpaper "author" (JStr "N/A")))
         ("来源: " +:+ source)
         ("描述: " +:+ py_str (dict_get_or first_wallpaper "desc" (JStr "N/A"))))
     else
       modify (set_info_labels "名称: " "作者: " "来源: " "描述: "));;
    for_each range3 (load_slot start_index).

Definition change_page (new_page : Z) : M unit :=
  if new_page <? 0 then
    message_box Warning "提示" "已经是第一页了！"
  else
    data ← gets wallpaper_data;
    if (new_page * 3 >=? len data) && (len data >? 0) then
      message_box Warning "提示" "没有更多壁纸了！"
    else
      modify (set_current_page new_page);;
      update_ui false.

(** [requests.get(url, timeout=10)], [raise_for_status()] and [json()]. *)
Definition requests_get_json (api : string -> api_outcome) (url : string)
  : M api_body :=
  lift match api url with
       | ApiTransportError e => Raise (RequestException e)
       | ApiInvalidJson true e => Raise (RequestsJSONDecodeError e)
       | ApiInvalidJson false e => Raise (JSONDecodeError e)
       | ApiJson body => Ok body
       end.

Definition load_wallpapers (api : string -> api_outcome) : M unit :=
  source ← gets sort_combo;
  let url := API_URL_format source in
  try_except
    (data ← requests_get_json api url;
     if py_eq_zero (default JNull (body_code data)) && has_key (body_data data)
     then
       modify (set_wallpaper_data (default [] (body_data data)));;
       update_ui false
     else
       message_box Critical "错误"
         ("API返回错误: " +:+ py_str (default (JStr "未知错误") (body_msg data)));;
       modify (set_wallpaper_data []);;
       update_ui true)
    (fun exc =>
       match exc with
       | RequestException e | RequestsJSONDecodeError e =>
           Some (message_box Critical "网络错误" ("无法连接到壁纸API: " +:+ e);;
                 modify (set_wallpaper_data []);;
                 update_ui true)
       | JSONDecodeError _ =>
           Some (message_box Critical "数据错误" "API返回了无效的JSON数据。";;
                 modify (set_wallpaper_data []);;
                 update_ui true)
       | _ => None
       end).

Definition sort_changed (text : string) (api : string -> api_outcome) : M unit :=
  modify (set_current_page 0);;
  load_wallpapers api.

(** The clean-up loop of both thumbnail callbacks: the first thread that is
    no longer running is removed. *)
Fixpoint remove_finished (ts : list thread) : list thread :=
  match ts with
  | [] => []
  | t :: ts' => if t_running t then t :: remove_finished ts' else ts'
  end.

Definition image_loaded (index : Z) (p : pixmap) : M unit :=
  labels ← gets pic_labels;
  (if index <? len labels then set_pic index (PicPixmap (Scaled 300 300 p))
   else mret tt);;
  modify (fun s => set_image_threads (remove_finished (image_threads s)) s).

Definition image_error (index : Z) (error_message : string) : M unit :=
  labels ← gets pic_labels;
  (if index <? len labels then
     set_pic index (PicText ("加载失败: " +:+ py_prefix 20 error_message +:+ "..."))
   else mret tt);;
  modify (fun s => set_image_threads (remove_finished (image_threads s)) s).

(** [new_path] is what the directory picker returned, empty on cancel. *)
Definition choose_download_path (new_path : string) : M unit :=
  if negb (String.eqb new_path "") then
    modify (set_download_path new_path);;
    modify (set_location_edit new_path)
  else mret tt.

(** [requests.get(url, timeout=20)] and [raise_for_status()]. *)
Definition requests_get (E : download_env) (i : Z) (url : string)
  : M (list byte) :=
  lift match image_get E i url with
       | ImageError e => Raise (RequestException e)
       | ImageContent content => Ok content
       end.

(** [with open(filename, 'wb') as f: f.write(content)]. *)
Definition write_file (E : download_env) (i : Z) (filename : string)
    (content : list byte) : M unit :=
  match open_wb E i filename with
  | OpenError => raise (OSError filename)
  | WriteError written =>
      modify (fun s =>
        set_files (<[realpath E filename := take written content]> (files s)) s);;
      raise (OSError filename)
  | Written =>
      modify (fun s =>
        set_files (<[realpath E filename := content]> (files s)) s)
  end.

(** The body of the download loop for index [i]. *)
Definition download_one (E : download_env) (start_index : Z) (i : Z)
    (download_count : Z) : M Z :=
  data ← gets wallpaper_data;
  let data_index := start_index + i in
  if data_index <? len data then
    wallpaper ← lift (py_getitem data data_index);
    let url := dict_get wallpaper "url" in
    let wallpaper_id := dict_get wallpaper "id" in
    if py_truthy url && py_truthy wallpaper_id then
      path ← gets download_path;
      let filename := os_path_join path (py_str wallpaper_id +:+ ".jpg") in
      try_except
        (content ← requests_get E i (py_str url);
         write_file E i filename content;;
         mret (download_count + 1))
        (fun exc =>
           match exc with
           | RequestException e | RequestsJSONDecodeError e =>
               Some (print ("下载 " +:+ py_str wallpaper_id +:+ " 失败: " +:+ e);;
                     mret download_count)
           | _ => None
           end)
    else mret download_count
  else mret download_count.

Definition start_download (E : download_env) : M unit :=
  data ← gets wallpaper_data;
  if is_empty data then
    message_box Warning "警告" "当前没有可下载的壁纸数据。"
  else
    page ← gets current_page;
    let start_index := page * 3 in
    download_count ← for_fold range3 (download_one E start_index) 0;
    path ← gets download_path;
    if download_count >? 0 then
      message_box Information "下载完成"
        ("成功下载 " +:+ pretty download_count +:+ " 张壁纸到:" +:+ newline +:+ path)
    else
      message_box Warning "下载失败"
        "没有壁纸被成功下载，请检查网络连接或下载路径。".

(** ** Start-up and the event loop *)

(** The machine [__init__] has built when it reaches its last line, the call
    of [load_wallpapers]: [home] is the user's home directory, [fs] the files
    on disk.  [os.makedirs(..., exist_ok=True)] is taken to succeed, and the
    combo box shows the first of [SOURCES]. *)
Definition constructed (home : string) (fs : gmap string (list byte)) : machine :=
  let path := os_path_join home "SmartisanOS_Wallpapers" in
  {| current_page := 0;
     wallpaper_data := [];
     image_threads := [];
     download_path := path;
     sort_combo := "Artand";
     page_label := "第 " +:+ pretty (0 + 1) +:+ " 页";
     pic_labels := [PicClear; PicClear; PicClear];
     name_label := "名称: ";
     author_label := "作者: ";
     source_label := "来源: ";
     desc_label := "描述: ";
     location_edit := path;
     dialogs := [];
     stdout := [];
     files := fs |}.

(** What the event loop delivers: the user's actions, the signals of the
    thumbnail threads, and a thread coming to its end. *)
Inductive event : Type :=
| SelectSource (text : string) (api : string -> api_outcome)
| ClickFirstPage
| ClickPrevPage
| ClickNextPage
| ChooseLocation (new_path : string)
| ClickDownload (E : download_env)
| ThumbnailFinished (index : Z) (p : pixmap)
| ThumbnailError (index : Z) (error_message : string)
| ThreadExit (k : nat).

Definition stop_thread (t : thread) : thread :=
  Thread (t_index t) (t_url t) false.

(** The slot connected to each signal in [init_ui] and [update_ui]. *)
Definition handle (ev : event) : M unit :=
  match ev with
  | SelectSource text api =>
      modify (set_sort_combo text);;
      sort_changed text api
  | ClickFirstPage => change_page 0
  | ClickPrevPage => page ← gets current_page; change_page (page - 1)
  | ClickNextPage => page ← gets current_page; change_page (page + 1)
  | ChooseLocation new_path => choose_download_path new_path
  | ClickDownload E => start_download E
  | ThumbnailFinished index p => image_loaded index p
  | ThumbnailError index error_message => image_error index error_message
  | ThreadExit k =>
      modify (fun s =>
        set_image_threads (alter stop_thread k (image_threads s)) s)
  end.

(** An event the running program can receive in state [s]. *)
Definition enabled (s : machine) (ev : event) : Prop :=
  match ev with
  | SelectSource text _ => text ∈ SOURCES ∧ text ≠ sort_combo s
  | ThumbnailFinished index _ | ThumbnailError index _ => 0 <= index < 3
  | _ => True
  end.

(** The states of a session: the one [load_wallpapers] leaves at the end of
    [__init__], and those the handlers make of them. *)
Inductive reachable : machine -> Prop :=
| reachable_init home fs api :
    reachable (load_wallpapers api (constructed home fs)).2
| reachable_step s ev :
    reachable s -> enabled s ev -> reachable (handle ev s).2.

(** ** The window of the current page *)

(** The record the loops of [update_ui] and [start_download] find for loop
    index [i], if [data_index < len(self.wallpaper_data)] holds there. *)
Definition slot_record (s : machine) (i : Z) : option (gmap string jval) :=
  let data_index := current_page s * 3 + i in
  if data_index <? len (wallpaper_data s) then
    match py_getitem (wallpaper_data s) data_index with
    | Ok wallpaper => Some wallpaper
    | Raise _ => None
    end
  else None.

(** The records of the current window, in the order the loops visit them. *)
Definition current_window (s : machine) : list (gmap string jval) :=
  omap (slot_record s) range3.

(** ** The thumbnail thread *)

(** What [ImageDownloader.run] meets: [requests.get(self.url, timeout=10)]
    and [raise_for_status()] raise a [RequestException], something raises
    another exception, or the body of the response arrives. *)
Inductive thumb_outcome : Type :=
| ThumbRequestError (e : string)
| ThumbOtherError (e : string)
| ThumbContent (content : list byte).

(** The two signals of an [ImageDownloader]. *)
Inductive signal : Type :=
| SigFinished (index : Z) (p : pixmap)
| SigError (index : Z) (error_message : string).

Definition signal_index (sig : signal) : Z :=
  match sig with
  | SigFinished index _ => index
  | SigError index _ => index
  end.

(** [ImageDownloader.run]: the signals it emits, in order.  [is_null content]
    tells whether [QImage.fromData(content).isNull()]. *)
Definition ImageDownloader_run (get : string -> thumb_outcome)
    (is_null : list byte -> bool) (t : thread) : list signal :=
  match get (py_str (t_url t)) with
  | ThumbContent content =>
      if is_null content then [SigError (t_index t) "Invalid image data"]
      else [SigFinished (t_index t) (Pixmap content)]
  | ThumbRequestError e => [SigError (t_index t) e]
  | ThumbOtherError e =>
      [SigError (t_index t) ("An unexpected error occurred: " +:+ e)]
  end.

(** The slot [update_ui] connected to the signal. *)
Definition deliver (sig : signal) : M unit :=
  match sig with
  | SigFinished index p => image_loaded index p
  | SigError index error_message => image_error index error_message
  end.

(** What every session keeps: a page index that is not negative, three
    preview labels, and a page label and a location field that show the page
    index and the download directory. *)
Definition well_formed (s : machine) : Prop :=
  0 <= current_page s /\
  length (pic_labels s) = 3%nat /\
  location_edit s = download_path s /\
  page_label s = "第 " +:+ pretty (current_page s + 1) +:+ " 页".

(** The line [start_download] prints for slot [i] when every request fails
    with the message [err i url]. *)
Definition failure_line (err : Z -> string -> string) (s : machine) (i : Z)
  : list string :=
  match slot_record s i with
  | Some w =>
      if py_truthy (dict_get w "url") && py_truthy (dict_get w "id") then
        ["下载 " +:+ py_str (dict_get w "id") +:+ " 失败: " +:+
         err i (py_str (dict_get w "url"))]
      else []
  | None => []
  end.

(** ** Sample inputs *)

Definition sample_record (id : string) : gmap string jval :=
  <["id" := JStr id]> (<["url" := JStr ("http://x/" +:+ id +:+ ".jpg")]> ∅).

(** A listing of five records, with the ids 1 to 5. *)
Definition sample_listing : list (gmap string jval) :=
  sample_record <$> ["1"; "2"; "3"; "4"; "5"].

(** A server that answers every request with [listing]. *)
Definition sample_api (listing : list (gmap string jval)) : string -> api_outcome :=
  fun _ => ApiJson (ApiBody (Some (JInt 0)) None (Some listing)).

(** A server that cannot be reached. *)
Definition api_down : string -> api_outcome :=
  fun _ => ApiTransportError "timed out".

(** The session after a start-up that got [sample_listing]. *)
Definition sample_machine : machine :=
  (load_wallpapers (sample_api sample_listing) (constructed "/home/u" ∅)).2.

(** The session after a start-up without network. *)
Definition offline_machine : machine :=
  (load_wallpapers api_down (constructed "/home/u" ∅)).2.

(** ** Notions the properties are stated with *)

(** [c] ends, by return or by exception, in a state with the [f] it started
    from. *)
Definition preserves {A B} (f : machine -> B) (c : M A) : Prop :=
  forall s, f (c s).2 = f s.

(** An exception [c] ends with satisfies [P]. *)
Definition raises_only {A} (P : exn -> Prop) (c : M A) : Prop :=
  forall s e, (c s).1 = Raise e -> P e.

(** [f] does not read what [update_ui] writes: the page label, the preview
    labels, the four info labels and the list of threads. *)
Definition ui_blind {B} (f : machine -> B) : Prop :=
  (forall v s, f (set_page_label v s) = f s) /\
  (forall v s, f (set_pic_labels v s) = f s) /\
  (forall a b c d s, f (set_info_labels a b c d s) = f s) /\
  (forall v s, f (set_image_threads v s) = f s).

(** [f] reads nothing [load_wallpapers] writes: what [update_ui] writes, the
    listing and the message boxes. *)
Definition fetch_blind {B} (f : machine -> B) : Prop :=
  ui_blind f /\
  (forall v s, f (set_wallpaper_data v s) = f s) /\
  (forall v s, f (set_dialogs v s) = f s).

(** What the loop of [update_ui] leaves in slot [i]. *)
Definition slot_pic (s : machine) (i : Z) : pic :=
  match slot_record s i with
  | Some wallpaper =>
      if py_truthy (dict_get wallpaper "url") then PicText "加载中..."
      else PicText "URL无效"
  | None => PicText "无壁纸"
  end.

(** The thread the loop of [update_ui] starts for slot [i], if any. *)
Definition slot_thread (s : machine) (i : Z) : list thread :=
  match slot_record s i with
  | Some wallpaper =>
      if py_truthy (dict_get wallpaper "url")
      then [Thread i (dict_get wallpaper "url") true]
      else []
  | None => []
  end.


(** The file [start_download] writes for the record [w]. *)
Definition download_target (s : machine) (w : gmap string jval) : string :=
  os_path_join (download_path s) (py_str (dict_get w "id") +:+ ".jpg").

(** Slot [i] of the window holds [w], which has an id and a URL that count as
    true; the request of the loop for it is answered with [content], and the
    write of its file goes through. *)
Definition downloadable (E : download_env) (s : machine) (i : Z)
    (w : gmap string jval) (content : list byte) : Prop :=
  slot_record s i = Some w /\
  py_truthy (dict_get w "url") = true /\
  py_truthy (dict_get w "id") = true /\
  image_get E i (py_str (dict_get w "url")) = ImageContent content /\
  open_wb E i (download_target s w) = Written.


(** Slot [i] of the window holds [w], which has an id and a URL that count as
    true, and the request of the loop for it is answered with [content]. *)
Definition fetched (E : download_env) (s : machine) (i : Z)
    (w : gmap string jval) (content : list byte) : Prop :=
  slot_record s i = Some w /\
  py_truthy (dict_get w "url") = true /\
  py_truthy (dict_get w "id") = true /\
  image_get E i (py_str (dict_get w "url")) = ImageContent content.

(** A disk on which every write goes through, and one on which every path
    names a file of its own. *)
Definition disk_ok : Z -> string -> write_outcome := fun _ _ => Written.
Definition same_name : string -> string := fun path => path.

(** The box that ends [start_download] after [n] files were written. *)
Definition download_report (n : Z) (path : string) : dialog :=
  if n >? 0 then
    Dialog Information "下载完成"
      ("成功下载 " +:+ pretty n +:+ " 张壁纸到:" +:+ newline +:+ path)
  else
    Dialog Warning "下载失败"
      "没有壁纸被成功下载，请检查网络连接或下载路径。".

(** An image server that answers every request. *)
Definition images_up : Z -> string -> image_outcome :=
  fun _ _ => ImageContent [x01; x02]%byte.



(** The listing request ended in one of the three error paths of
    [load_wallpapers]: a transport error, a body that is not JSON, or a body
    whose [code] is not [0] or that has no [data]. *)
Definition fetch_failed (o : api_outcome) : bool :=
  match o with
  | ApiTransportError _ => true
  | ApiInvalidJson _ _ => true
  | ApiJson body =>
      negb (py_eq_zero (default JNull (body_code body)) && has_key (body_data body))
  end.

(** * Properties *)

(** ** Python lists *)

Lemma py_index_in_range {A} (l : list A) (i : Z) :
  0 <= i < len l -> py_index l i = Some (Z.to_nat i).
Proof.
  intros [Hlo Hhi]. unfold py_index.
  destruct (i <? 0) eqn:Hneg; [lia|].
  destruct (0 <=? i) eqn:H0; [|lia].
  destruct (i <? len l) eqn:H1; [reflexivity|lia].
Qed.

Lemma py_getitem_in_range {A} (l : list A) (i : Z) :
  0 <= i < len l ->
  exists x, py_getitem l i = Ok x /\ l !! Z.to_nat i = Some x.
Proof.
  intros Hi. unfold py_getitem. rewrite (py_index_in_range l i Hi).
  destruct (l !! Z.to_nat i) as [x|] eqn:Hx.
  - exists x. split; reflexivity.
  - apply lookup_ge_None in Hx. unfold len in Hi. lia.
Qed.

Lemma py_setitem_in_range {A} (l : list A) (i : Z) (x : A) :
  0 <= i < len l -> py_setitem l i x = Ok (<[Z.to_nat i := x]> l).
Proof.
  intros Hi. unfold py_setitem. rewrite (py_index_in_range l i Hi).
  reflexivity.
Qed.

Lemma len_nonneg {A} (l : list A) : 0 <= len l.
Proof. unfold len. lia. Qed.

Lemma is_empty_true {A} (l : list A) : is_empty l = true <-> l = [].
Proof. destruct l; simpl; split; congruence. Qed.

Lemma is_empty_len {A} (l : list A) : is_empty l = (len l =? 0).
Proof. destruct l; unfold len; simpl; [reflexivity|]. symmetry. lia. Qed.

(** ** Frame rules: what a computation leaves alone *)

Section Frame.
Context {B : Type} (f : machine -> B).

Lemma preserves_ret {A} (a : A) : preserves f (mret a).
Proof. intros s. reflexivity. Qed.

Lemma preserves_raise {A} (e : exn) : preserves f (@raise A e).
Proof. intros s. reflexivity. Qed.

Lemma preserves_lift {A} (r : result A) : preserves f (lift r).
Proof. intros s. reflexivity. Qed.

Lemma preserves_gets {A} (g : machine -> A) : preserves f (gets g).
Proof. intros s. reflexivity. Qed.

Lemma preserves_modify (g : machine -> machine) :
  (forall s, f (g s) = f s) -> preserves f (modify g).
Proof. intros Hg s. apply Hg. Qed.

Lemma preserves_bind {A C} (c : M A) (k : A -> M C) :
  preserves f c -> (forall a, preserves f (k a)) -> preserves f (c ≫= k).
Proof.
  intros Hc Hk s. unfold mbind, M_bind, bind.
  specialize (Hc s). destruct (c s) as [[a|e] s']; simpl in *.
  - rewrite Hk. exact Hc.
  - exact Hc.
Qed.

Lemma preserves_if {A} (b : bool) (c1 c2 : M A) :
  preserves f c1 -> preserves f c2 -> preserves f (if b then c1 else c2).
Proof. destruct b; auto. Qed.

Lemma preserves_try_except {A} (body : M A) (handler : exn -> option (M A)) :
  preserves f body ->
  (forall e h, handler e = Some h -> preserves f h) ->
  preserves f (try_except body handler).
Proof.
  intros Hb Hh s. unfold try_except.
  specialize (Hb s). destruct (body s) as [[a|e] s']; simpl in *.
  - exact Hb.
  - destruct (handler e) as [h|] eqn:He; simpl.
    + rewrite (Hh e h He). exact Hb.
    + exact Hb.
Qed.

Lemma preserves_for_each {A} (xs : list A) (body : A -> M unit) :
  (forall x, preserves f (body x)) -> preserves f (for_each xs body).
Proof.
  intros Hb. induction xs as [|x xs IH]; simpl.
  - apply preserves_ret.
  - apply preserves_bind; [apply Hb | intros _; exact IH].
Qed.

Lemma preserves_for_fold {A C} (xs : list A) (body : A -> C -> M C) (acc : C) :
  (forall x a, preserves f (body x a)) -> preserves f (for_fold xs body acc).
Proof.
  intros Hb. revert acc. induction xs as [|x xs IH]; intros acc; simpl.
  - apply preserves_ret.
  - apply preserves_bind; [apply Hb | intros a; apply IH].
Qed.
End Frame.

Create HintDb frame.

#[export] Hint Resolve preserves_ret preserves_raise preserves_lift
  preserves_gets : frame.

(** One step through the structure of a handler. *)
Ltac frame_step :=
  match goal with
  | |- preserves _ (mret _) => apply preserves_ret
  | |- preserves _ (raise _) => apply preserves_raise
  | |- preserves _ (lift _) => apply preserves_lift
  | |- preserves _ (gets _) => apply preserves_gets
  | |- preserves _ (modify _) =>
      apply preserves_modify; intros; simpl; solve [auto | congruence]
  | |- preserves _ (_ ≫= _) => apply preserves_bind; [|intros ?]
  | |- preserves _ (if _ then _ else _) => apply preserves_if
  | |- preserves _ (for_each _ _) => apply preserves_for_each; intros ?
  | |- preserves _ (for_fold _ _ _) => apply preserves_for_fold; intros ? ?
  | |- preserves _ (try_except _ _) =>
      apply preserves_try_except;
      [|let e := fresh "e" in let h := fresh "h" in let He := fresh "He" in
        intros e h He; destruct e; inversion He; subst; clear He]
  | |- preserves _ _ => solve [eauto with frame]
  end.

Ltac frame := repeat frame_step.

(** ** What [update_ui] leaves alone *)

Lemma set_pic_frame {B} (f : machine -> B) (i : Z) (p : pic) :
  (forall v s, f (set_pic_labels v s) = f s) -> preserves f (set_pic i p).
Proof. intros Hf. unfold set_pic. frame. Qed.

Lemma load_slot_frame {B} (f : machine -> B) (start_index i : Z) :
  (forall v s, f (set_pic_labels v s) = f s) ->
  (forall v s, f (set_image_threads v s) = f s) ->
  preserves f (load_slot start_index i).
Proof.
  intros Hpics Hthreads.
  unfold load_slot, start_image_downloader.
  pose proof (fun i p => set_pic_frame f i p Hpics) as Hset.
  frame.
Qed.

Lemma update_ui_frame {B} (f : machine -> B) (clear : bool) :
  ui_blind f -> preserves f (update_ui clear).
Proof.
  intros (Hpage & Hpics & Hinfo & Hthreads).
  pose proof (fun a i => load_slot_frame f a i Hpics Hthreads) as Hslot.
  unfold update_ui, set_all_pics.
  frame.
Qed.

(** Closes [ui_blind f] and [fetch_blind f] for a field [f] of the machine. *)
Ltac blind := repeat split; intros; reflexivity.

Lemma load_wallpapers_frame {B} (f : machine -> B) (api : string -> api_outcome) :
  fetch_blind f -> preserves f (load_wallpapers api).
Proof.
  intros (Hui & Hdata & Hdlg).
  pose proof (fun c => update_ui_frame f c Hui) as Hupd.
  unfold load_wallpapers, requests_get_json, message_box.
  frame.
Qed.

Lemma slot_record_ext (s s' : machine) (i : Z) :
  current_page s' = current_page s ->
  wallpaper_data s' = wallpaper_data s ->
  slot_record s' i = slot_record s i.
Proof. intros Hp Hd. unfold slot_record. rewrite Hp, Hd. reflexivity. Qed.

Lemma slot_record_Some (s : machine) (i : Z) :
  0 <= current_page s * 3 + i < len (wallpaper_data s) ->
  exists w, slot_record s i = Some w /\
            py_getitem (wallpaper_data s) (current_page s * 3 + i) = Ok w /\
            wallpaper_data s !! Z.to_nat (current_page s * 3 + i) = Some w.
Proof.
  intros Hi. unfold slot_record.
  destruct (py_getitem_in_range _ _ Hi) as (w & Hw & Hl).
  destruct (_ <? _) eqn:Hlt; [|lia].
  rewrite Hw. eauto.
Qed.

Lemma slot_record_None (s : machine) (i : Z) :
  len (wallpaper_data s) <= current_page s * 3 + i -> slot_record s i = None.
Proof.
  intros Hi. unfold slot_record.
  destruct (_ <? _) eqn:Hlt; [lia|reflexivity].
Qed.

(** *** Running a handler step by step *)

Lemma run_bind {A B} (c : M A) (k : A -> M B) (s : machine) :
  (c ≫= k) s =
  match c s with
  | (Ok a, s') => k a s'
  | (Raise e, s') => (Raise e, s')
  end.
Proof. reflexivity. Qed.

Lemma run_ret {A} (a : A) (s : machine) : (mret a : M A) s = (Ok a, s).
Proof. reflexivity. Qed.

Lemma run_gets {A} (g : machine -> A) (s : machine) : gets g s = (Ok (g s), s).
Proof. reflexivity. Qed.

Lemma run_modify (g : machine -> machine) (s : machine) :
  modify g s = (Ok tt, g s).
Proof. reflexivity. Qed.

Lemma run_lift {A} (r : result A) (s : machine) : lift r s = (r, s).
Proof. reflexivity. Qed.

Lemma run_raise {A} (e : exn) (s : machine) : @raise A e s = (Raise e, s).
Proof. reflexivity. Qed.

(** Reads of a field through the setters. *)
Ltac fields :=
  cbn [current_page wallpaper_data image_threads download_path sort_combo
       page_label pic_labels name_label author_label source_label desc_label
       location_edit dialogs stdout files
       set_current_page set_wallpaper_data set_image_threads set_download_path
       set_sort_combo set_page_label set_pic_labels set_info_labels
       set_location_edit set_dialogs set_stdout set_files fst snd
       orb andb negb] in *.

Ltac run :=
  repeat (rewrite ?run_bind, ?run_ret, ?run_gets, ?run_modify, ?run_lift,
            ?run_raise;
          cbv beta iota zeta);
  fields.

Lemma set_pic_in_range (s : machine) (i : Z) (p : pic) :
  0 <= i < len (pic_labels s) ->
  set_pic i p s = (Ok tt, set_pic_labels (<[Z.to_nat i := p]> (pic_labels s)) s).
Proof.
  intros Hi. unfold set_pic. run.
  rewrite (py_setitem_in_range _ _ _ Hi). run. reflexivity.
Qed.

(** [update_ui] shows the number of the current page. *)
Lemma update_ui_page_label (clear : bool) (s : machine) :
  page_label (update_ui clear s).2 =
  "第 " +:+ pretty (current_page s + 1) +:+ " 页".
Proof.
  unfold update_ui.
  rewrite run_bind, run_gets. cbv beta iota zeta.
  rewrite run_bind, run_modify. cbv beta iota zeta.
  match goal with
  | |- page_label (?c ?s1).2 = _ =>
      assert (preserves page_label c) as Hrest
  end.
  { pose proof (fun a i => load_slot_frame page_label a i
                  (fun _ _ => eq_refl) (fun _ _ => eq_refl)) as Hslot.
    unfold set_all_pics. frame. }
  rewrite Hrest. reflexivity.
Qed.

(** One turn of the loop of [update_ui] writes slot [i] and nothing else but
    the list of threads. *)
Lemma load_slot_spec (s : machine) (i : Z) :
  0 <= current_page s -> 0 <= i < len (pic_labels s) ->
  load_slot (current_page s * 3) i s =
  (Ok tt,
   set_image_threads (image_threads s ++ slot_thread s i)
     (set_pic_labels (<[Z.to_nat i := slot_pic s i]> (pic_labels s)) s)).
Proof.
  intros Hp Hi. unfold slot_pic, slot_thread, load_slot. run.
  destruct (current_page s * 3 + i <? len (wallpaper_data s)) eqn:Hlt.
  - destruct (slot_record_Some s i) as (w & -> & -> & _); [lia|]. run.
    destruct (py_truthy (dict_get w "url")) eqn:Hurl; run;
      rewrite (set_pic_in_range _ _ _ Hi).
    + reflexivity.
    + destruct s; simpl. rewrite app_nil_r. reflexivity.
  - rewrite slot_record_None by lia.
    rewrite (set_pic_in_range _ _ _ Hi).
    destruct s; simpl. rewrite app_nil_r. reflexivity.
Qed.

Lemma load_slot_at (s0 s : machine) (i : Z) :
  current_page s = current_page s0 ->
  wallpaper_data s = wallpaper_data s0 ->
  0 <= current_page s0 -> 0 <= i < len (pic_labels s) ->
  load_slot (current_page s0 * 3) i s =
  (Ok tt,
   set_image_threads (image_threads s ++ slot_thread s0 i)
     (set_pic_labels (<[Z.to_nat i := slot_pic s0 i]> (pic_labels s)) s)).
Proof.
  intros Hp Hd H0 Hi. rewrite <- Hp in *.
  rewrite (load_slot_spec s i H0 Hi).
  unfold slot_thread, slot_pic.
  rewrite (slot_record_ext s0 s i) by congruence.
  reflexivity.
Qed.

(** The loop of [update_ui] over the three slots. *)
Lemma load_slots_spec (s0 s : machine) :
  current_page s = current_page s0 ->
  wallpaper_data s = wallpaper_data s0 ->
  0 <= current_page s0 -> length (pic_labels s) = 3%nat ->
  for_each range3 (load_slot (current_page s0 * 3)) s =
  (Ok tt,
   set_image_threads
     (image_threads s ++ slot_thread s0 0 ++ slot_thread s0 1 ++ slot_thread s0 2)
     (set_pic_labels [slot_pic s0 0; slot_pic s0 1; slot_pic s0 2] s)).
Proof.
  intros Hp Hd H0 Hlen. unfold range3. simpl for_each. run.
  rewrite (load_slot_at s0 s 0) by (unfold len; auto; lia). run.
  match goal with |- context [load_slot _ 1 ?s1] =>
    rewrite (load_slot_at s0 s1 1)
      by (unfold len; simpl; rewrite ?length_insert; auto; lia)
  end. run.
  match goal with |- context [load_slot _ 2 ?s2] =>
    rewrite (load_slot_at s0 s2 2)
      by (unfold len; simpl; rewrite ?length_insert; auto; lia)
  end. run.
  destruct s as [p d t dp sc pl pics nl al sl dl le dg so fs]; simpl in *.
  destruct pics as [|a [|b [|c [|? ?]]]]; try discriminate Hlen. simpl.
  rewrite <- !app_assoc. reflexivity.
Qed.

(** [update_ui()] on a listing that is not empty returns, and shows in its
    three slots what the listing has at the window's indices. *)
Lemma update_ui_shows (s : machine) :
  length (pic_labels s) = 3%nat -> 0 <= current_page s ->
  wallpaper_data s <> [] ->
  (update_ui false s).1 = Ok tt /\
  pic_labels (update_ui false s).2 = [slot_pic s 0; slot_pic s 1; slot_pic s 2] /\
  image_threads (update_ui false s).2 =
    image_threads s ++ slot_thread s 0 ++ slot_thread s 1 ++ slot_thread s 2.
Proof.
  intros Hlen Hp Hd. unfold update_ui, set_all_pics. run.
  destruct (is_empty (wallpaper_data s)) eqn:He;
    [apply is_empty_true in He; contradiction|].
  destruct (current_page s * 3 <? len (wallpaper_data s)) eqn:Hlt; run.
  - destruct (py_getitem_in_range (wallpaper_data s) (current_page s * 3))
      as (w & -> & _); [lia|]. run.
    match goal with |- context [for_each _ _ ?s1] =>
      rewrite (load_slots_spec s s1)
        by (simpl; rewrite ?length_fmap; auto)
    end.
    simpl. auto.
  - match goal with |- context [for_each _ _ ?s1] =>
      rewrite (load_slots_spec s s1)
        by (simpl; rewrite ?length_fmap; auto)
    end.
    simpl. auto.
Qed.

(** [update_ui(clear=True)], and [update_ui()] on an empty listing, return
    and show "no data" in every slot. *)
Lemma update_ui_cleared (clear : bool) (s : machine) :
  clear = true \/ wallpaper_data s = [] ->
  update_ui clear s =
  (Ok tt,
   set_pic_labels ((fun _ => PicText "无数据") <$> pic_labels s)
     (set_info_labels "名称: " "作者: " "来源: " "描述: "
        (set_page_label ("第 " +:+ pretty (current_page s + 1) +:+ " 页") s))).
Proof.
  intros Hc. unfold update_ui, set_all_pics. run.
  assert (clear || is_empty (wallpaper_data s) = true) as ->.
  { destruct Hc as [->| ->]; [reflexivity|]. apply orb_true_r. }
  run. destruct s; simpl. rewrite <- list_fmap_compose. reflexivity.
Qed.

Lemma run_try_except {A} (body : M A) (handler : exn -> option (M A))
    (s : machine) :
  try_except body handler s =
  match body s with
  | (Ok a, s') => (Ok a, s')
  | (Raise e, s') =>
      match handler e with
      | Some h => h s'
      | None => (Raise e, s')
      end
  end.
Proof. reflexivity. Qed.

Lemma app_singleton_neq {A} (l : list A) (x : A) : l ++ [x] <> l.
Proof.
  intros H. apply (f_equal length) in H. rewrite length_app in H.
  simpl in H. lia.
Qed.

(** ** Page navigation *)

Lemma page_full_iff (n N : Z) :
  (n * 3 >=? N) && (N >? 0) = true <-> N <= n * 3 /\ 0 < N.
Proof. rewrite andb_true_iff, Z.geb_le, Z.gtb_lt. lia. Qed.

Lemma change_page_rejected (n : Z) (s : machine) :
  ~ (0 <= n /\ (len (wallpaper_data s) = 0 \/ n * 3 < len (wallpaper_data s))) ->
  exists text,
    change_page n s =
    (Ok tt, set_dialogs (dialogs s ++ [Dialog Warning "提示" text]) s).
Proof.
  intros Hno. unfold change_page, message_box.
  destruct (n <? 0) eqn:Hneg.
  - eexists. rewrite run_modify. reflexivity.
  - run.
    destruct ((n * 3 >=? len (wallpaper_data s)) && (len (wallpaper_data s) >? 0))
      eqn:Hfull.
    + eexists. rewrite run_modify. reflexivity.
    + exfalso. apply Hno.
      assert (~ (len (wallpaper_data s) <= n * 3 /\ 0 < len (wallpaper_data s)))
        by (rewrite <- page_full_iff, Hfull; discriminate).
      pose proof (len_nonneg (wallpaper_data s)). lia.
Qed.

Lemma change_page_accepted (n : Z) (s : machine) :
  0 <= n /\ (len (wallpaper_data s) = 0 \/ n * 3 < len (wallpaper_data s)) ->
  change_page n s = update_ui false (set_current_page n s).
Proof.
  intros [Hn HN]. unfold change_page.
  destruct (n <? 0) eqn:Hneg; [lia|]. run.
  destruct ((n * 3 >=? len (wallpaper_data s)) && (len (wallpaper_data s) >? 0))
    eqn:Hfull.
  - apply page_full_iff in Hfull. lia.
  - reflexivity.
Qed.

(** C1. For a listing of N records and any integer n, [change_page n] goes to
    page n exactly when [0 <= n] and ([N = 0] or [n * 3 < N]): then the page
    index becomes n, the listing stays, no warning is shown and, with the
    three preview labels in place, the handler returns; otherwise the state
    is the one before with a warning box added, and the handler returns. *)
Theorem change_page_succeeds_iff (n : Z) (s : machine) :
  let N := len (wallpaper_data s) in
  let accepted := 0 <= n /\ (N = 0 \/ n * 3 < N) in
  (accepted ->
     change_page n s = update_ui false (set_current_page n s) /\
     current_page (change_page n s).2 = n /\
     wallpaper_data (change_page n s).2 = wallpaper_data s /\
     dialogs (change_page n s).2 = dialogs s /\
     (length (pic_labels s) = 3%nat -> (change_page n s).1 = Ok tt)) /\
  (~ accepted ->
     exists text,
       change_page n s =
       (Ok tt, set_dialogs (dialogs s ++ [Dialog Warning "提示" text]) s)) /\
  (dialogs (change_page n s).2 = dialogs s <-> accepted).
Proof.
  intros N accepted.
  assert (accepted ->
          change_page n s = update_ui false (set_current_page n s) /\
          current_page (change_page n s).2 = n /\
          wallpaper_data (change_page n s).2 = wallpaper_data s /\
          dialogs (change_page n s).2 = dialogs s /\
          (length (pic_labels s) = 3%nat -> (change_page n s).1 = Ok tt)) as Hyes.
  { intros Hacc. rewrite (change_page_accepted n s Hacc).
    split; [reflexivity|].
    rewrite !(update_ui_frame _ false) by blind. fields.
    repeat split; try reflexivity.
    intros Hlen. destruct (wallpaper_data s) as [|w d] eqn:Hd.
    - rewrite update_ui_cleared by (right; exact Hd). reflexivity.
    - apply update_ui_shows; fields; [exact Hlen|apply Hacc|congruence]. }
  split; [exact Hyes|]. split; [apply change_page_rejected|].
  split.
  - intros Hsame. destruct (decide accepted) as [Hacc|Hno]; [exact Hacc|].
    destruct (change_page_rejected n s Hno) as [text Heq].
    rewrite Heq in Hsame. fields. apply app_singleton_neq in Hsame. contradiction.
  - intros Hacc. apply Hyes, Hacc.
Qed.

Lemma change_page_succeeds_iff_witness :
  current_page (change_page 1 sample_machine).2 = 1 /\
  exists text,
    change_page 2 sample_machine =
    (Ok tt,
     set_dialogs (dialogs sample_machine ++ [Dialog Warning "提示" text])
       sample_machine).
Proof.
  assert (len (wallpaper_data sample_machine) = 5) as HN
    by (vm_compute; reflexivity).
  split.
  - apply (change_page_succeeds_iff 1 sample_machine). rewrite HN. lia.
  - apply (change_page_succeeds_iff 2 sample_machine). rewrite HN. lia.
Defined.

(** ** The window of the current page *)

Lemma slot_record_lookup (s : machine) (i : Z) :
  0 <= current_page s -> 0 <= i ->
  slot_record s i = wallpaper_data s !! Z.to_nat (current_page s * 3 + i).
Proof.
  intros Hp Hi.
  destruct (Z.lt_ge_cases (current_page s * 3 + i) (len (wallpaper_data s)))
    as [Hlt|Hge].
  - destruct (slot_record_Some s i) as (w & -> & _ & ->); [lia|reflexivity].
  - rewrite slot_record_None by lia. symmetry.
    apply lookup_ge_None. unfold len in Hge. lia.
Qed.




(** ** Downloading the window *)

Lemma py_getitem_lookup {A} (l : list A) (k : Z) (x : A) :
  0 <= k -> l !! Z.to_nat k = Some x -> py_getitem l k = Ok x.
Proof.
  intros Hk Hx. assert (0 <= k < len l) as Hr.
  { apply lookup_lt_Some in Hx. unfold len. lia. }
  destruct (py_getitem_in_range l k Hr) as (y & Hy & Hl). congruence.
Qed.

Section DownloadOne.
Context (E : download_env) (start i n : Z) (s : machine).
Context (w : gmap string jval).
Hypothesis Hstart : 0 <= start + i.
Hypothesis Hw : wallpaper_data s !! Z.to_nat (start + i) = Some w.

Lemma download_one_found :
  (start + i <? len (wallpaper_data s)) = true /\
  py_getitem (wallpaper_data s) (start + i) = Ok w.
Proof.
  split; [|apply py_getitem_lookup; assumption].
  apply lookup_lt_Some in Hw. unfold len. lia.
Qed.

(** A record without a usable id or URL is passed over. *)
Lemma download_one_skip :
  py_truthy (dict_get w "url") && py_truthy (dict_get w "id") = false ->
  download_one E start i n s = (Ok n, s).
Proof.
  intros Hno. destruct download_one_found as [Hlt Hget].
  unfold download_one. run. rewrite Hlt, Hget. run. rewrite Hno. reflexivity.
Qed.

(** A request that fails is printed and the loop goes on. *)
Lemma download_one_fetch_error (e : string) :
  py_truthy (dict_get w "url") && py_truthy (dict_get w "id") = true ->
  image_get E i (py_str (dict_get w "url")) = ImageError e ->
  download_one E start i n s =
  (Ok n,
   set_stdout
     (stdout s ++ ["下载 " +:+ py_str (dict_get w "id") +:+ " 失败: " +:+ e]) s).
Proof.
  intros Hyes Hget'. destruct download_one_found as [Hlt Hget].
  unfold download_one. run. rewrite Hlt, Hget. run. rewrite Hyes. run.
  rewrite run_try_except. unfold requests_get, print. run. rewrite Hget'. run.
  reflexivity.
Qed.

(** A file that is fetched and written counts. *)
Lemma download_one_written (content : list byte) :
  py_truthy (dict_get w "url") && py_truthy (dict_get w "id") = true ->
  image_get E i (py_str (dict_get w "url")) = ImageContent content ->
  open_wb E i (download_target s w) = Written ->
  download_one E start i n s =
  (Ok (n + 1),
   set_files (<[realpath E (download_target s w) := content]> (files s)) s).
Proof.
  intros Hyes Hget' Hopen. destruct download_one_found as [Hlt Hget].
  unfold download_one. run. rewrite Hlt, Hget. run. rewrite Hyes. run.
  rewrite run_try_except. unfold requests_get, write_file. run.
  rewrite Hget'. run. fold (download_target s w). rewrite Hopen. run. reflexivity.
Qed.

(** A file that cannot be opened ends the handler with an [OSError]. *)
Lemma download_one_write_error (content : list byte) :
  py_truthy (dict_get w "url") && py_truthy (dict_get w "id") = true ->
  image_get E i (py_str (dict_get w "url")) = ImageContent content ->
  open_wb E i (download_target s w) = OpenError ->
  download_one E start i n s = (Raise (OSError (download_target s w)), s).
Proof.
  intros Hyes Hget' Hopen. destruct download_one_found as [Hlt Hget].
  unfold download_one. run. rewrite Hlt, Hget. run. rewrite Hyes. run.
  rewrite run_try_except. unfold requests_get, write_file. run.
  rewrite Hget'. run. fold (download_target s w). rewrite Hopen. run. reflexivity.
Qed.

(** A write that breaks off ends the handler with an [OSError] too, and
    leaves the part that was written. *)
Lemma download_one_write_partial (content : list byte) (written : nat) :
  py_truthy (dict_get w "url") && py_truthy (dict_get w "id") = true ->
  image_get E i (py_str (dict_get w "url")) = ImageContent content ->
  open_wb E i (download_target s w) = WriteError written ->
  download_one E start i n s =
  (Raise (OSError (download_target s w)),
   set_files
     (<[realpath E (download_target s w) := take written content]> (files s)) s).
Proof.
  intros Hyes Hget' Hopen. destruct download_one_found as [Hlt Hget].
  unfold download_one. run. rewrite Hlt, Hget. run. rewrite Hyes. run.
  rewrite run_try_except. unfold requests_get, write_file. run.
  rewrite Hget'. run. fold (download_target s w). rewrite Hopen. run. reflexivity.
Qed.
End DownloadOne.

(** Past the end of the listing the loop does nothing. *)
Lemma download_one_past_end (E : download_env) (start i n : Z) (s : machine) :
  len (wallpaper_data s) <= start + i ->
  download_one E start i n s = (Ok n, s).
Proof.
  intros Hge. unfold download_one. run.
  destruct (start + i <? len (wallpaper_data s)) eqn:Hlt; [lia|reflexivity].
Qed.


(** [start_download] on a listing that is not empty runs the loop and, if
    the loop returns, ends with the box for its count. *)
Lemma start_download_reports (E : download_env) (s : machine) :
  wallpaper_data s <> [] ->
  start_download E s =
  match for_fold range3 (download_one E (current_page s * 3)) 0 s with
  | (Ok n, s1) =>
      (Ok tt, set_dialogs (dialogs s1 ++ [download_report n (download_path s1)]) s1)
  | (Raise e, s1) => (Raise e, s1)
  end.
Proof.
  intros Hd. unfold start_download, message_box. run.
  destruct (is_empty (wallpaper_data s)) eqn:He;
    [apply is_empty_true in He; contradiction|].
  run.
  destruct (for_fold range3 (download_one E (current_page s * 3)) 0 s)
    as [[n|e] s1]; [|reflexivity].
  run. unfold download_report. destruct (n >? 0); run; reflexivity.
Qed.

Lemma slot_record_found (s : machine) (i : Z) (w : gmap string jval) :
  0 <= current_page s -> 0 <= i -> slot_record s i = Some w ->
  wallpaper_data s !! Z.to_nat (current_page s * 3 + i) = Some w.
Proof. intros Hp Hi Hw. rewrite <- slot_record_lookup by lia. exact Hw. Qed.

Lemma slot_record_nonempty (s : machine) (i : Z) (w : gmap string jval) :
  slot_record s i = Some w -> wallpaper_data s <> [].
Proof.
  unfold slot_record, py_getitem, py_index, len. intros Hw Hd.
  rewrite Hd in Hw. simpl in Hw.
  repeat match type of Hw with
         | context [if ?b then _ else _] => destruct b
         end; discriminate.
Qed.




(** C4 at the failing input. The first file of the window cannot be opened,
    the two others could: the [OSError] is not caught by the [except] clause
    of the loop, so [start_download] ends with it, in the state it started
    from: the second and third record are not attempted, nothing is printed
    and no box is shown. *)
Theorem start_download_write_error_escapes :
  let E := DownloadEnv images_up
             (fun i _ => if i =? 0 then OpenError else Written) same_name in
  open_wb E 1 "/home/u/SmartisanOS_Wallpapers/2.jpg" = Written /\
  open_wb E 2 "/home/u/SmartisanOS_Wallpapers/3.jpg" = Written /\
  start_download E sample_machine =
    (Raise (OSError "/home/u/SmartisanOS_Wallpapers/1.jpg"), sample_machine).
Proof. intros E. vm_compute. repeat split. Qed.

Lemma write_file_frame {B} (f : machine -> B) (E : download_env) (i : Z)
    (filename : string) (content : list byte) :
  (forall v s, f (set_files v s) = f s) ->
  preserves f (write_file E i filename content).
Proof.
  intros Hfiles. unfold write_file.
  destruct (open_wb E i filename); frame.
Qed.

Lemma download_one_frame {B} (f : machine -> B) (E : download_env)
    (start i n : Z) :
  (forall v s, f (set_stdout v s) = f s) ->
  (forall v s, f (set_files v s) = f s) ->
  preserves f (download_one E start i n).
Proof.
  intros Hout Hfiles.
  pose proof (fun i name content =>
    write_file_frame f E i name content Hfiles) as Hwrite.
  unfold download_one, requests_get, print.
  frame.
Qed.

Lemma start_download_frame {B} (f : machine -> B) (E : download_env) :
  (forall v s, f (set_stdout v s) = f s) ->
  (forall v s, f (set_files v s) = f s) ->
  (forall v s, f (set_dialogs v s) = f s) ->
  preserves f (start_download E).
Proof.
  intros Hout Hfiles Hdlg.
  pose proof (fun a i n => download_one_frame f E a i n Hout Hfiles) as Hone.
  unfold start_download, message_box.
  frame.
Qed.



(** ** The window the loops visit *)






(** ** Which exceptions a computation can end with *)

Section RaisesOnly.
Context (P : exn -> Prop).

Lemma raises_only_ret {A} (a : A) : raises_only P (mret a).
Proof. intros s e H. discriminate H. Qed.

Lemma raises_only_gets {A} (g : machine -> A) : raises_only P (gets g).
Proof. intros s e H. discriminate H. Qed.

Lemma raises_only_modify (g : machine -> machine) : raises_only P (modify g).
Proof. intros s e H. discriminate H. Qed.

Lemma raises_only_lift {A} (r : result A) :
  (forall e, r = Raise e -> P e) -> raises_only P (lift r).
Proof. intros Hr s e H. apply Hr. exact H. Qed.

Lemma raises_only_bind {A C} (c : M A) (k : A -> M C) :
  raises_only P c -> (forall a, raises_only P (k a)) ->
  raises_only P (c ≫= k).
Proof.
  intros Hc Hk s e. rewrite run_bind.
  specialize (Hc s). destruct (c s) as [[a|e'] s']; simpl in *.
  - apply Hk.
  - intros [= <-]. apply Hc. reflexivity.
Qed.

Lemma raises_only_if {A} (b : bool) (c1 c2 : M A) :
  raises_only P c1 -> raises_only P c2 ->
  raises_only P (if b then c1 else c2).
Proof. destruct b; auto. Qed.

Lemma raises_only_for_each {A} (xs : list A) (body : A -> M unit) :
  (forall x, raises_only P (body x)) -> raises_only P (for_each xs body).
Proof.
  intros Hb. induction xs as [|x xs IH]; simpl.
  - apply raises_only_ret.
  - apply raises_only_bind; [apply Hb | intros _; exact IH].
Qed.
End RaisesOnly.

Lemma py_getitem_raises {A} (l : list A) (i : Z) (e : exn) :
  py_getitem l i = Raise e -> e = IndexError.
Proof.
  unfold py_getitem. destruct (py_index l i) as [k|]; [|congruence].
  destruct (l !! k); congruence.
Qed.

Lemma py_setitem_raises {A} (l : list A) (i : Z) (x : A) (e : exn) :
  py_setitem l i x = Raise e -> e = IndexError.
Proof. unfold py_setitem. destruct (py_index l i); congruence. Qed.

Ltac raises_step :=
  match goal with
  | |- raises_only _ (mret _) => apply raises_only_ret
  | |- raises_only _ (gets _) => apply raises_only_gets
  | |- raises_only _ (modify _) => apply raises_only_modify
  | |- raises_only _ (lift (py_getitem _ _)) =>
      apply raises_only_lift; intros ?; apply py_getitem_raises
  | |- raises_only _ (lift (py_setitem _ _ _)) =>
      apply raises_only_lift; intros ?; apply py_setitem_raises
  | |- raises_only _ (_ ≫= _) => apply raises_only_bind; [|intros ?]
  | |- raises_only _ (if _ then _ else _) => apply raises_only_if
  | |- raises_only _ (for_each _ _) => apply raises_only_for_each; intros ?
  end.

(** The only exception [update_ui] can end with is an [IndexError]. *)
Lemma update_ui_raises (clear : bool) :
  raises_only (fun e => e = IndexError) (update_ui clear).
Proof.
  unfold update_ui, set_all_pics, load_slot, set_pic, start_image_downloader.
  repeat raises_step.
Qed.

(** ** Fetching the listing *)

(** The three error paths of [load_wallpapers] end alike: one critical box,
    an empty listing and a cleared display. *)
Lemma load_wallpapers_failed (api : string -> api_outcome) (s : machine) :
  fetch_failed (api (API_URL_format (sort_combo s))) = true ->
  exists title text,
    load_wallpapers api s =
    update_ui true
      (set_wallpaper_data []
         (set_dialogs (dialogs s ++ [Dialog Critical title text]) s)).
Proof.
  intros Hfail. unfold load_wallpapers, requests_get_json, message_box. run.
  rewrite run_try_except. run.
  destruct (api (API_URL_format (sort_combo s))) as [e|[|] e|body]; run.
  - do 2 eexists. reflexivity.
  - do 2 eexists. reflexivity.
  - do 2 eexists. reflexivity.
  - simpl in Hfail. apply negb_true_iff in Hfail. rewrite Hfail. run.
    exists "错误",
      ("API返回错误: " +:+ py_str (default (JStr "未知错误") (body_msg body))).
    rewrite update_ui_cleared by (left; reflexivity). reflexivity.
Qed.

(** The success path stores the [data] array as it came. *)
Lemma load_wallpapers_succeeded (api : string -> api_outcome) (s : machine)
    (body : api_body) (listing : list (gmap string jval)) :
  api (API_URL_format (sort_combo s)) = ApiJson body ->
  py_eq_zero (default JNull (body_code body)) = true ->
  body_data body = Some listing ->
  load_wallpapers api s = update_ui false (set_wallpaper_data listing s).
Proof.
  intros Hapi Hcode Hdata.
  unfold load_wallpapers, requests_get_json. run.
  rewrite run_try_except. run. rewrite Hapi. run.
  rewrite Hcode, Hdata.
  change (has_key (Some listing)) with true.
  change (default [] (Some listing)) with listing.
  cbn [andb]. run.
  destruct (update_ui false (set_wallpaper_data listing s)) as [[[]|e] s'] eqn:Hu.
  - reflexivity.
  - assert (e = IndexError) as ->.
    { apply (update_ui_raises false (set_wallpaper_data listing s)).
      rewrite Hu. reflexivity. }
    reflexivity.
Qed.

(** The four info labels show the first record of the window, with "N/A"
    for a key the record does not have. *)
Lemma update_ui_info (s : machine) (w : gmap string jval) :
  length (pic_labels s) = 3%nat -> 0 <= current_page s ->
  slot_record s 0 = Some w ->
  name_label (update_ui false s).2 =
    "名称: " +:+ py_str (dict_get_or w "id" (JStr "N/A")) /\
  author_label (update_ui false s).2 =
    "作者: " +:+ py_str (dict_get_or w "author" (JStr "N/A")) /\
  source_label (update_ui false s).2 = "来源: " +:+ sort_combo s /\
  desc_label (update_ui false s).2 =
    "描述: " +:+ py_str (dict_get_or w "desc" (JStr "N/A")).
Proof.
  intros Hlen Hp Hw.
  pose proof (slot_record_nonempty s 0 w Hw) as Hd.
  apply slot_record_found in Hw; [|lia|lia].
  rewrite Z.add_0_r in Hw.
  assert (current_page s * 3 < len (wallpaper_data s)) as Hlt.
  { apply lookup_lt_Some in Hw. unfold len. lia. }
  unfold update_ui, set_all_pics. run.
  destruct (is_empty (wallpaper_data s)) eqn:He;
    [apply is_empty_true in He; contradiction|].
  run.
  destruct (current_page s * 3 <? len (wallpaper_data s)) eqn:Hlt'; [|lia].
  rewrite (py_getitem_lookup _ _ w) by (assumption || lia). run.
  match goal with |- context [for_each _ _ ?s1] =>
    rewrite (load_slots_spec s s1) by (simpl; rewrite ?length_fmap; auto)
  end.
  fields. repeat split.
Qed.

Lemma slot_thread_index (s : machine) (j : Z) (t : thread) :
  t ∈ slot_thread s j -> t_index t = j.
Proof.
  unfold slot_thread. destruct (slot_record s j) as [w|];
    [|intros H; apply elem_of_nil in H; contradiction].
  destruct (py_truthy (dict_get w "url"));
    [|intros H; apply elem_of_nil in H; contradiction].
  intros H. apply list_elem_of_singleton in H. subst t. reflexivity.
Qed.

(** C5, as amended. On the success path [load_wallpapers] stores the [data]
    array as it came, so a record without a URL stays in the listing.  Such a
    record is passed over where it is used: [update_ui] returns, shows the
    "URL invalid" text in its slot and starts no thread for it (none of the
    threads it appends to the list carries the index of that slot), and the
    download loop leaves the count and the state as they are.  The
    placeholder "N/A" stands in the info labels for an id, an author or a
    description that the first record of the window does not have. *)
Theorem load_wallpapers_keeps_records :
  (forall api s body listing,
     api (API_URL_format (sort_combo s)) = ApiJson body ->
     py_eq_zero (default JNull (body_code body)) = true ->
     body_data body = Some listing ->
     wallpaper_data (load_wallpapers api s).2 = listing) /\
  (forall s i w,
     length (pic_labels s) = 3%nat -> 0 <= current_page s -> 0 <= i < 3 ->
     slot_record s i = Some w -> py_truthy (dict_get w "url") = false ->
     (update_ui false s).1 = Ok tt /\
     pic_labels (update_ui false s).2 !! Z.to_nat i = Some (PicText "URL无效") /\
     (exists started,
        image_threads (update_ui false s).2 = image_threads s ++ started /\
        forall t, t ∈ started -> t_index t <> i) /\
     forall E n, download_one E (current_page s * 3) i n s = (Ok n, s)) /\
  (forall s w,
     length (pic_labels s) = 3%nat -> 0 <= current_page s ->
     slot_record s 0 = Some w ->
     (w !! "id" = None -> name_label (update_ui false s).2 = "名称: N/A") /\
     (w !! "author" = None -> author_label (update_ui false s).2 = "作者: N/A") /\
     (w !! "desc" = None -> desc_label (update_ui false s).2 = "描述: N/A")).
Proof.
  split; [|split].
  - intros api s body listing Hapi Hcode Hdata.
    rewrite (load_wallpapers_succeeded api s body listing Hapi Hcode Hdata).
    rewrite (update_ui_frame wallpaper_data false) by blind. reflexivity.
  - intros s i w Hlen Hp Hi Hw Hurl.
    pose proof (slot_record_nonempty s i w Hw) as Hd.
    destruct (update_ui_shows s Hlen Hp Hd) as (Hok & Hshow & Hthreads).
    split; [exact Hok|]. split; [|split].
    + rewrite Hshow.
      assert (slot_pic s i = PicText "URL无效") as Hpic
        by (unfold slot_pic; rewrite Hw, Hurl; reflexivity).
      assert (i = 0 \/ i = 1 \/ i = 2) as [->|[->| ->]] by lia;
        simpl; rewrite Hpic; reflexivity.
    + exists (slot_thread s 0 ++ slot_thread s 1 ++ slot_thread s 2).
      split; [exact Hthreads|].
      assert (slot_thread s i = []) as Hnone
        by (unfold slot_thread; rewrite Hw, Hurl; reflexivity).
      intros t Ht Hti. rewrite !elem_of_app in Ht.
      destruct Ht as [Ht|[Ht|Ht]];
        pose proof (slot_thread_index _ _ _ Ht) as Hj;
        match type of Ht with
        | _ ∈ slot_thread s ?j =>
            assert (slot_thread s j = slot_thread s i) as Heq
              by (f_equal; congruence)
        end;
        rewrite Heq, Hnone in Ht; apply elem_of_nil in Ht; contradiction.
    + intros E n. apply (download_one_skip E _ i n s w); [lia| |].
      * apply slot_record_found; [exact Hp|lia|exact Hw].
      * rewrite Hurl. reflexivity.
  - intros s w Hlen Hp Hw.
    destruct (update_ui_info s w Hlen Hp Hw) as (Hname & Hauthor & _ & Hdesc).
    rewrite Hname, Hauthor, Hdesc. unfold dict_get_or.
    repeat split; intros ->; reflexivity.
Qed.

Lemma load_wallpapers_keeps_records_witness :
  let nourl : gmap string jval := {["id" := JStr "9"]} in
  let s := (load_wallpapers (sample_api [nourl]) (constructed "/home/u" ∅)).2 in
  wallpaper_data s = [nourl] /\
  pic_labels (update_ui false s).2 !! 0%nat = Some (PicText "URL无效") /\
  author_label (update_ui false s).2 = "作者: N/A".
Proof.
  intros nourl s.
  destruct load_wallpapers_keeps_records as (Hkeep & Hskip & Hinfo).
  split; [|split].
  - apply (Hkeep (sample_api [nourl]) (constructed "/home/u" ∅)
             (ApiBody (Some (JInt 0)) None (Some [nourl]))); reflexivity.
  - apply (Hskip s 0 nourl);
      solve [reflexivity | lia | vm_compute; discriminate].
  - apply (Hinfo s nourl);
      solve [reflexivity | lia | vm_compute; discriminate].
Defined.

(** C5 as stated fails: a record without a URL in the [data] array is not
    skipped, it is in the stored listing. *)
Lemma load_wallpapers_keeps_records_counterexample :
  let nourl : gmap string jval := {["id" := JStr "9"]} in
  let s := (load_wallpapers (sample_api [nourl]) (constructed "/home/u" ∅)).2 in
  nourl !! "url" = None /\
  wallpaper_data s = [nourl] /\
  ~ Forall (fun w : gmap string jval => is_Some (w !! "url")) (wallpaper_data s).
Proof.
  intros nourl s.
  assert (wallpaper_data s = [nourl]) as Hs by (vm_compute; reflexivity).
  split; [reflexivity|]. split; [exact Hs|].
  rewrite Hs. intros H. apply Forall_inv in H. destruct H as [v Hv].
  vm_compute in Hv. discriminate Hv.
Qed.

(** C6. Whenever the listing request ends in an error (a transport or
    timeout error, a body that is not JSON, or a body that reports a failure),
    [load_wallpapers] returns instead of raising, leaves an empty listing,
    has shown exactly one more box, a critical one, and shows "no data" in
    every slot. *)
Theorem load_wallpapers_error_clears (api : string -> api_outcome) (s : machine) :
  fetch_failed (api (API_URL_format (sort_combo s))) = true ->
  (load_wallpapers api s).1 = Ok tt /\
  wallpaper_data (load_wallpapers api s).2 = [] /\
  (exists title text,
     dialogs (load_wallpapers api s).2 =
     dialogs s ++ [Dialog Critical title text]) /\
  pic_labels (load_wallpapers api s).2 =
    (fun _ => PicText "无数据") <$> pic_labels s.
Proof.
  intros Hfail.
  destruct (load_wallpapers_failed api s Hfail) as (title & text & ->).
  rewrite update_ui_cleared by (left; reflexivity). fields.
  repeat split. exists title, text. reflexivity.
Qed.

Lemma load_wallpapers_error_clears_witness :
  (load_wallpapers api_down sample_machine).1 = Ok tt /\
  wallpaper_data (load_wallpapers api_down sample_machine).2 = [] /\
  (load_wallpapers (fun _ => ApiInvalidJson true "Expecting value") sample_machine).1
    = Ok tt /\
  (load_wallpapers
     (fun _ => ApiJson (ApiBody (Some (JInt 1)) (Some (JStr "busy")) (Some [])))
     sample_machine).1 = Ok tt.
Proof.
  split; [|split; [|split]].
  - apply (load_wallpapers_error_clears api_down sample_machine). reflexivity.
  - apply (load_wallpapers_error_clears api_down sample_machine). reflexivity.
  - apply (load_wallpapers_error_clears
             (fun _ => ApiInvalidJson true "Expecting value") sample_machine).
    reflexivity.
  - apply (load_wallpapers_error_clears
             (fun _ => ApiJson (ApiBody (Some (JInt 1)) (Some (JStr "busy")) (Some [])))
             sample_machine).
    reflexivity.
Defined.

(** ** Changing the source *)

(** Every path of [load_wallpapers] ends in [update_ui], which shows the
    page the session is on. *)
Lemma load_wallpapers_page_label (api : string -> api_outcome) (s : machine) :
  page_label (load_wallpapers api s).2 =
  "第 " +:+ pretty (current_page s + 1) +:+ " 页".
Proof.
  destruct (fetch_failed (api (API_URL_format (sort_combo s)))) eqn:Hfail.
  - destruct (load_wallpapers_failed api s Hfail) as (title & text & ->).
    rewrite update_ui_page_label. reflexivity.
  - destruct (api (API_URL_format (sort_combo s))) as [e|b e|body] eqn:Hapi;
      try discriminate Hfail.
    simpl in Hfail. apply negb_false_iff, andb_true_iff in Hfail.
    destruct Hfail as [Hcode Hkey].
    destruct (body_data body) as [listing|] eqn:Hdata; [|discriminate Hkey].
    rewrite (load_wallpapers_succeeded api s body listing Hapi Hcode Hdata).
    rewrite update_ui_page_label. reflexivity.
Qed.

(** C8. [sort_changed] is [load_wallpapers] run on the state with the page
    index set to 0: the request is issued with the index already 0, the index
    is 0 when the handler ends, however the request went, and the page label
    then shows page 1. *)
Theorem sort_changed_resets_page (text : string) (api : string -> api_outcome)
    (s : machine) :
  sort_changed text api s = load_wallpapers api (set_current_page 0 s) /\
  current_page (set_current_page 0 s) = 0 /\
  current_page (sort_changed text api s).2 = 0 /\
  page_label (sort_changed text api s).2 = "第 1 页".
Proof.
  assert (sort_changed text api s = load_wallpapers api (set_current_page 0 s))
    as Heq by reflexivity.
  split; [exact Heq|]. split; [reflexivity|]. rewrite Heq. split.
  - rewrite (load_wallpapers_frame current_page) by blind. reflexivity.
  - rewrite load_wallpapers_page_label. reflexivity.
Qed.

Lemma sort_changed_resets_page_witness :
  let s := (change_page 1 sample_machine).2 in
  current_page s = 1 /\
  current_page (sort_changed "Pexels" (sample_api sample_listing) s).2 = 0 /\
  current_page (sort_changed "Pexels" api_down s).2 = 0.
Proof.
  intros s. split; [vm_compute; reflexivity|]. split.
  - apply (sort_changed_resets_page "Pexels" (sample_api sample_listing) s).
  - apply (sort_changed_resets_page "Pexels" api_down s).
Defined.

(** ** Thumbnail callbacks *)

Lemma image_error_run (index : Z) (error_message : string) (s : machine) :
  0 <= index ->
  image_error index error_message s =
  (Ok tt,
   set_image_threads (remove_finished (image_threads s))
     (set_pic_labels
        (if index <? len (pic_labels s) then
           <[Z.to_nat index :=
               PicText ("加载失败: " +:+ py_prefix 20 error_message +:+ "...")]>
             (pic_labels s)
         else pic_labels s) s)).
Proof.
  intros Hi. unfold image_error. run.
  destruct (index <? len (pic_labels s)) eqn:Hlt.
  - rewrite set_pic_in_range by lia. run. reflexivity.
  - run. destruct s; reflexivity.
Qed.

(** C9. An error reported for slot i, with i one of 0, 1, 2, changes slot i
    only: every other slot shows what it showed, the page index, the listing,
    the download directory, the selected source, the labels of both panels,
    the boxes shown, the console and the files are as before; the handler
    returns, and the one other thing it touches is the list of threads, from
    which the first finished one is dropped. *)
Theorem image_error_touches_one_slot (index : Z) (error_message : string)
    (s : machine) :
  0 <= index < 3 ->
  let s' := (image_error index error_message s).2 in
  (image_error index error_message s).1 = Ok tt /\
  (forall j : nat, j <> Z.to_nat index -> pic_labels s' !! j = pic_labels s !! j) /\
  length (pic_labels s') = length (pic_labels s) /\
  (length (pic_labels s) = 3%nat ->
   pic_labels s' !! Z.to_nat index =
   Some (PicText ("加载失败: " +:+ py_prefix 20 error_message +:+ "..."))) /\
  current_page s' = current_page s /\
  wallpaper_data s' = wallpaper_data s /\
  download_path s' = download_path s /\
  sort_combo s' = sort_combo s /\
  (page_label s', name_label s', author_label s', source_label s',
   desc_label s', location_edit s') =
  (page_label s, name_label s, author_label s, source_label s,
   desc_label s, location_edit s) /\
  dialogs s' = dialogs s /\ stdout s' = stdout s /\ files s' = files s /\
  image_threads s' = remove_finished (image_threads s).
Proof.
  intros Hi s'. subst s'.
  rewrite (image_error_run index error_message s) by lia. fields.
  split; [reflexivity|]. split; [|split; [|split]].
  - intros j Hj. destruct (index <? len (pic_labels s)); [|reflexivity].
    apply list_lookup_insert_ne. congruence.
  - destruct (index <? len (pic_labels s)); [|reflexivity].
    apply length_insert.
  - intros Hlen.
    destruct (index <? len (pic_labels s)) eqn:Hlt;
      [|unfold len in Hlt; lia].
    apply list_lookup_insert_eq. lia.
  - repeat split.
Qed.

Lemma image_error_touches_one_slot_witness :
  let s' := (image_error 1 "HTTPSConnectionPool: timed out" sample_machine).2 in
  let s'' := (image_error 2 "连接超时，服务器没有在规定的时间内返回任何数据，请稍后再试"
                sample_machine).2 in
  pic_labels s' !! 0%nat = pic_labels sample_machine !! 0%nat /\
  pic_labels s' !! 2%nat = pic_labels sample_machine !! 2%nat /\
  pic_labels s' !! 1%nat = Some (PicText "加载失败: HTTPSConnectionPool:...") /\
  pic_labels s'' !! 2%nat =
    Some (PicText "加载失败: 连接超时，服务器没有在规定的时间内返回任...") /\
  wallpaper_data s' = wallpaper_data sample_machine.
Proof.
  intros s' s''.
  assert (0 <= 1 < 3) as Hi by lia.
  assert (0 <= 2 < 3) as Hi2 by lia.
  destruct (image_error_touches_one_slot 1 "HTTPSConnectionPool: timed out"
              sample_machine Hi)
    as (_ & Hother & _ & Hmine & _ & Hdata & _).
  destruct (image_error_touches_one_slot 2
              "连接超时，服务器没有在规定的时间内返回任何数据，请稍后再试"
              sample_machine Hi2)
    as (_ & _ & _ & Hmine2 & _).
  split; [apply Hother; discriminate|].
  split; [apply Hother; discriminate|].
  split; [apply Hmine; reflexivity|].
  split; [|exact Hdata].
  etransitivity; [exact (Hmine2 eq_refl)|]. vm_compute. reflexivity.
Defined.

(** [py_prefix] counts characters, not bytes. *)
Lemma py_prefix_counts_characters :
  py_prefix 2 "加载中" = "加载" /\
  py_prefix 3 "añb𝄞c" = "añb" /\
  py_prefix 20 "boom" = "boom" /\
  py_prefix 0 "boom" = "".
Proof. repeat split. Qed.

(** ** The window invariant *)











(** C10. On each error path of [load_wallpapers] the page index is the one
    before, as are the download directory, the selected source and the
    files; the listing is empty.  So run on a page other than the first, an
    error path ends with an empty listing on that page; and a session can
    reach a state with an empty listing and a page index other than 0. *)
Theorem load_wallpapers_error_keeps_page :
  (forall api s,
     fetch_failed (api (API_URL_format (sort_combo s))) = true ->
     current_page (load_wallpapers api s).2 = current_page s /\
     wallpaper_data (load_wallpapers api s).2 = [] /\
     download_path (load_wallpapers api s).2 = download_path s /\
     sort_combo (load_wallpapers api s).2 = sort_combo s /\
     files (load_wallpapers api s).2 = files s) /\
  (exists s, reachable s /\ wallpaper_data s = [] /\ current_page s <> 0).
Proof.
  split.
  - intros api s Hfail.
    split; [apply load_wallpapers_frame; blind|].
    split.
    { destruct (load_wallpapers_failed api s Hfail) as (title & text & ->).
      rewrite (update_ui_frame wallpaper_data true) by blind. reflexivity. }
    repeat split; apply load_wallpapers_frame; blind.
  - exists (handle ClickNextPage offline_machine).2. split.
    + apply reachable_step; [apply reachable_init | exact I].
    + vm_compute. split; [reflexivity|discriminate].
Qed.

Lemma load_wallpapers_error_keeps_page_witness :
  let s := (change_page 1 sample_machine).2 in
  current_page (load_wallpapers api_down s).2 = 1 /\
  wallpaper_data (load_wallpapers api_down s).2 = [].
Proof.
  intros s.
  destruct load_wallpapers_error_keeps_page as (Hkeep & _).
  destruct (Hkeep api_down s) as (Hpage & Hdata & _); [reflexivity|].
  split; [rewrite Hpage; vm_compute; reflexivity|exact Hdata].
Defined.

(** * Further properties of the handlers *)

(** ** The clean-up of finished threads *)

(** X1. The clean-up loop of the thumbnail callbacks removes at most one
    thread, the first one that is no longer running: every running thread
    stays, in order; nothing changes when all are running, and otherwise the
    list is shorter by exactly one. *)
Theorem remove_finished_drops_one (ts : list thread) :
  filter (fun t => t_running t = true) (remove_finished ts) =
    filter (fun t => t_running t = true) ts /\
  (Forall (fun t => t_running t = true) ts -> remove_finished ts = ts) /\
  (~ Forall (fun t => t_running t = true) ts ->
   S (length (remove_finished ts)) = length ts) /\
  (forall front t back,
     Forall (fun t => t_running t = true) front -> t_running t = false ->
     remove_finished (front ++ t :: back) = front ++ back).
Proof.
  split; [|split; [|split]].
  - induction ts as [|t ts IH]; [reflexivity|]. simpl.
    destruct (t_running t) eqn:Ht.
    + rewrite !filter_cons_True by exact Ht. rewrite IH. reflexivity.
    + rewrite filter_cons_False by congruence. reflexivity.
  - induction 1 as [|t ts Ht Hts IH]; [reflexivity|]. simpl.
    rewrite Ht, IH. reflexivity.
  - induction ts as [|t ts IH]; intros Hnot.
    + exfalso. apply Hnot. constructor.
    + simpl. destruct (t_running t) eqn:Ht; [|reflexivity].
      simpl. f_equal. apply IH. intros Hall. apply Hnot.
      constructor; assumption.
  - intros front t back Hfront Ht.
    induction Hfront as [|t' front Ht' Hfront IH]; simpl.
    + rewrite Ht. reflexivity.
    + rewrite Ht', IH. reflexivity.
Qed.

Lemma remove_finished_drops_one_witness :
  remove_finished
    [Thread 0 (JStr "a") true; Thread 1 (JStr "b") false;
     Thread 2 (JStr "c") false] =
  [Thread 0 (JStr "a") true; Thread 2 (JStr "c") false].
Proof.
  apply (remove_finished_drops_one [] )
    with (front := [Thread 0 (JStr "a") true]) (t := Thread 1 (JStr "b") false).
  - repeat constructor.
  - reflexivity.
Defined.

(** ** The thumbnail callbacks *)

Lemma image_loaded_run (index : Z) (p : pixmap) (s : machine) :
  0 <= index ->
  image_loaded index p s =
  (Ok tt,
   set_image_threads (remove_finished (image_threads s))
     (set_pic_labels
        (if index <? len (pic_labels s) then
           <[Z.to_nat index := PicPixmap (Scaled 300 300 p)]> (pic_labels s)
         else pic_labels s) s)).
Proof.
  intros Hi. unfold image_loaded. run.
  destruct (index <? len (pic_labels s)) eqn:Hlt.
  - rewrite set_pic_in_range by lia. run. reflexivity.
  - run. destruct s; reflexivity.
Qed.

(** X2. A picture that arrives for slot i, with i one of 0, 1, 2, is shown
    in slot i scaled to 300 by 300, whatever page and listing the session is
    on by then: the handler does not look at either.  Every other slot and
    the rest of the session are as before, and one finished thread is
    dropped. *)
Theorem image_loaded_fills_slot (index : Z) (p : pixmap) (s : machine) :
  0 <= index < 3 -> length (pic_labels s) = 3%nat ->
  let s' := (image_loaded index p s).2 in
  (image_loaded index p s).1 = Ok tt /\
  pic_labels s' = <[Z.to_nat index := PicPixmap (Scaled 300 300 p)]> (pic_labels s) /\
  pic_labels s' !! Z.to_nat index = Some (PicPixmap (Scaled 300 300 p)) /\
  (forall j : nat, j <> Z.to_nat index -> pic_labels s' !! j = pic_labels s !! j) /\
  (forall page listing,
     pic_labels (image_loaded index p
                   (set_wallpaper_data listing (set_current_page page s))).2
     = pic_labels s') /\
  current_page s' = current_page s /\
  wallpaper_data s' = wallpaper_data s /\
  download_path s' = download_path s /\
  dialogs s' = dialogs s /\ files s' = files s /\
  image_threads s' = remove_finished (image_threads s).
Proof.
  intros Hi Hlen s'. subst s'.
  rewrite (image_loaded_run index p s) by lia. fields.
  assert ((index <? len (pic_labels s)) = true) as Hlt
    by (unfold len; lia).
  rewrite Hlt.
  split; [reflexivity|]. split; [reflexivity|]. split; [|split; [|split]].
  - apply list_lookup_insert_eq. lia.
  - intros j Hj. apply list_lookup_insert_ne. congruence.
  - intros page listing. rewrite image_loaded_run by lia. fields.
    rewrite Hlt. reflexivity.
  - repeat split.
Qed.

Lemma image_loaded_fills_slot_witness :
  let s := (load_wallpapers api_down sample_machine).2 in
  wallpaper_data s = [] /\
  pic_labels (image_loaded 2 (Pixmap [x01]%byte) s).2 =
    [PicText "无数据"; PicText "无数据";
     PicPixmap (Scaled 300 300 (Pixmap [x01]%byte))].
Proof.
  intros s. split; [vm_compute; reflexivity|].
  assert (0 <= 2 < 3) as Hi by lia.
  assert (length (pic_labels s) = 3%nat) as Hlen by (vm_compute; reflexivity).
  destruct (image_loaded_fills_slot 2 (Pixmap [x01]%byte) s Hi Hlen)
    as (_ & -> & _).
  vm_compute. reflexivity.
Defined.

(** X3. An index outside 0..2, for both callbacks.  At or past the number
    of labels they write no label and only drop a finished thread.  A
    negative index counts from the end, as Python list indexing does: -k
    writes slot 3 - k, the picture for [image_loaded] and the error text for
    [image_error].  Below -3 the indexing raises [IndexError], which leaves
    the handler before the clean-up loop: nothing at all has changed. *)
Theorem thumbnail_callbacks_out_of_range (index : Z) (p : pixmap)
    (msg : string) (s : machine) :
  length (pic_labels s) = 3%nat ->
  (3 <= index ->
   image_loaded index p s =
     (Ok tt, set_image_threads (remove_finished (image_threads s)) s) /\
   image_error index msg s =
     (Ok tt, set_image_threads (remove_finished (image_threads s)) s)) /\
  (-3 <= index < 0 ->
   image_loaded index p s =
     (Ok tt,
      set_image_threads (remove_finished (image_threads s))
        (set_pic_labels
           (<[Z.to_nat (3 + index) := PicPixmap (Scaled 300 300 p)]>
              (pic_labels s)) s)) /\
   image_error index msg s =
     (Ok tt,
      set_image_threads (remove_finished (image_threads s))
        (set_pic_labels
           (<[Z.to_nat (3 + index) :=
                PicText ("加载失败: " +:+ py_prefix 20 msg +:+ "...")]>
              (pic_labels s)) s))) /\
  (index < -3 ->
   image_loaded index p s = (Raise IndexError, s) /\
   image_error index msg s = (Raise IndexError, s)).
Proof.
  intros Hlen.
  assert (len (pic_labels s) = 3) as HL by (unfold len; lia).
  split; [|split].
  - intros Hi.
    rewrite image_loaded_run, image_error_run by lia.
    assert ((index <? len (pic_labels s)) = false) as -> by lia.
    split; destruct s; reflexivity.
  - intros Hi. unfold image_loaded, image_error. run.
    assert ((index <? len (pic_labels s)) = true) as -> by lia.
    unfold set_pic. run. unfold py_setitem, py_index. rewrite HL.
    assert ((index <? 0) = true) as -> by lia.
    assert ((0 <=? index + 3) && (index + 3 <? 3) = true) as ->
      by (apply andb_true_iff; lia).
    run. replace (index + 3) with (3 + index) by lia. split; reflexivity.
  - intros Hi. unfold image_loaded, image_error. run.
    assert ((index <? len (pic_labels s)) = true) as -> by lia.
    unfold set_pic. run. unfold py_setitem, py_index. rewrite HL.
    assert ((index <? 0) = true) as -> by lia.
    assert ((0 <=? index + 3) && (index + 3 <? 3) = false) as ->
      by (apply andb_false_iff; lia).
    run. split; reflexivity.
Qed.

Lemma thumbnail_callbacks_out_of_range_witness :
  pic_labels (image_loaded (-1) (Pixmap [x01]%byte) sample_machine).2 !! 2%nat =
    Some (PicPixmap (Scaled 300 300 (Pixmap [x01]%byte))) /\
  pic_labels (image_error (-3) "boom" sample_machine).2 !! 0%nat =
    Some (PicText "加载失败: boom...") /\
  image_error (-4) "boom" sample_machine = (Raise IndexError, sample_machine).
Proof.
  assert (length (pic_labels sample_machine) = 3%nat) as Hlen
    by (vm_compute; reflexivity).
  destruct (thumbnail_callbacks_out_of_range (-1) (Pixmap [x01]%byte) "boom"
              sample_machine Hlen) as (_ & Hneg & _).
  destruct (thumbnail_callbacks_out_of_range (-4) (Pixmap [x01]%byte) "boom"
              sample_machine Hlen) as (_ & _ & Hlow).
  destruct (thumbnail_callbacks_out_of_range (-3) (Pixmap [x01]%byte) "boom"
              sample_machine Hlen) as (_ & Hneg3 & _).
  split; [|split].
  - destruct Hneg as [-> _]; [lia|]. vm_compute. reflexivity.
  - destruct Hneg3 as [_ ->]; [lia|]. vm_compute. reflexivity.
  - apply Hlow. lia.
Defined.

(** ** The thumbnail thread *)

(** X4. Whatever the network and the decoder do, [ImageDownloader.run] emits
    exactly one signal and it carries the thread's own slot index; it is
    [finished] exactly when the request succeeded and the body decodes to an
    image.  Delivered to the window, the signal of a thread for slot 0, 1 or
    2 is handled without an exception and changes that one slot only. *)
Theorem thumbnail_thread_reports_once (get : string -> thumb_outcome)
    (is_null : list byte -> bool) (t : thread) (s : machine) :
  0 <= t_index t < 3 ->
  exists sig,
    ImageDownloader_run get is_null t = [sig] /\
    signal_index sig = t_index t /\
    ((exists p, sig = SigFinished (t_index t) p) <->
     (exists content, get (py_str (t_url t)) = ThumbContent content /\
                      is_null content = false)) /\
    (deliver sig s).1 = Ok tt /\
    (forall j : nat, j <> Z.to_nat (t_index t) ->
       pic_labels (deliver sig s).2 !! j = pic_labels s !! j) /\
    current_page (deliver sig s).2 = current_page s /\
    wallpaper_data (deliver sig s).2 = wallpaper_data s.
Proof.
  intros Hi.
  assert (forall sig, signal_index sig = t_index t ->
            (deliver sig s).1 = Ok tt /\
            (forall j : nat, j <> Z.to_nat (t_index t) ->
               pic_labels (deliver sig s).2 !! j = pic_labels s !! j) /\
            current_page (deliver sig s).2 = current_page s /\
            wallpaper_data (deliver sig s).2 = wallpaper_data s) as Hdeliver.
  { intros [index p|index msg] Hsig; simpl in Hsig; subst index; simpl deliver.
    - rewrite image_loaded_run by lia. fields.
      repeat split. intros j Hj.
      destruct (t_index t <? len (pic_labels s)); [|reflexivity].
      apply list_lookup_insert_ne. congruence.
    - rewrite image_error_run by lia. fields.
      repeat split. intros j Hj.
      destruct (t_index t <? len (pic_labels s)); [|reflexivity].
      apply list_lookup_insert_ne. congruence. }
  unfold ImageDownloader_run.
  destruct (get (py_str (t_url t))) as [e|e|content] eqn:Hget.
  - eexists. split; [reflexivity|]. split; [reflexivity|].
    split; [|apply Hdeliver; reflexivity].
    split; [intros [p Hp]; discriminate Hp|intros (c & Hc & _); discriminate Hc].
  - eexists. split; [reflexivity|]. split; [reflexivity|].
    split; [|apply Hdeliver; reflexivity].
    split; [intros [p Hp]; discriminate Hp|intros (c & Hc & _); discriminate Hc].
  - destruct (is_null content) eqn:Hnull.
    + eexists. split; [reflexivity|]. split; [reflexivity|].
      split; [|apply Hdeliver; reflexivity].
      split; [intros [p Hp]; discriminate Hp|].
      intros (c & Hc & Hn). congruence.
    + eexists. split; [reflexivity|]. split; [reflexivity|].
      split; [|apply Hdeliver; reflexivity].
      split; [intros _; exists content; split; [reflexivity|exact Hnull]|].
      intros _. eexists. reflexivity.
Qed.

Lemma thumbnail_thread_reports_once_witness :
  exists sig,
    ImageDownloader_run (fun _ => ThumbContent []) (fun c => is_empty c)
      (Thread 1 (JStr "http://x/2.jpg") true) = [sig] /\
    signal_index sig = 1 /\
    (deliver sig sample_machine).1 = Ok tt.
Proof.
  assert (0 <= t_index (Thread 1 (JStr "http://x/2.jpg") true) < 3) as Hi
    by (simpl; lia).
  destruct (thumbnail_thread_reports_once (fun _ => ThumbContent [])
              (fun c => is_empty c) _ sample_machine Hi)
    as (sig & Hrun & Hidx & _ & Hok & _).
  exists sig. split; [exact Hrun|]. split; [exact Hidx|exact Hok].
Defined.

(** ** What every session keeps *)

Lemma set_pic_length (i : Z) (p : pic) :
  preserves (fun s => length (pic_labels s)) (set_pic i p).
Proof.
  intros s. unfold set_pic. run. unfold py_setitem.
  destruct (py_index (pic_labels s) i) as [k|]; run; [|reflexivity].
  apply length_insert.
Qed.

Lemma set_all_pics_length (t : string) :
  preserves (fun s => length (pic_labels s)) (set_all_pics t).
Proof. intros s. unfold set_all_pics. run. apply length_fmap. Qed.

Lemma update_ui_length (clear : bool) :
  preserves (fun s => length (pic_labels s)) (update_ui clear).
Proof.
  pose proof set_pic_length as Hset. pose proof set_all_pics_length as Hall.
  unfold update_ui, load_slot, start_image_downloader.
  frame.
Qed.

Lemma load_wallpapers_length (api : string -> api_outcome) :
  preserves (fun s => length (pic_labels s)) (load_wallpapers api).
Proof.
  pose proof update_ui_length as Hupd.
  unfold load_wallpapers, requests_get_json, message_box.
  frame.
Qed.


Lemma update_ui_well_formed (clear : bool) (s : machine) :
  0 <= current_page s -> length (pic_labels s) = 3%nat ->
  location_edit s = download_path s ->
  well_formed (update_ui clear s).2.
Proof.
  intros Hp Hlen Hloc. unfold well_formed.
  rewrite (update_ui_length clear s).
  rewrite (update_ui_frame current_page clear) by blind.
  rewrite (update_ui_frame location_edit clear) by blind.
  rewrite (update_ui_frame download_path clear) by blind.
  rewrite update_ui_page_label. auto.
Qed.

Lemma load_wallpapers_well_formed (api : string -> api_outcome) (s : machine) :
  0 <= current_page s -> length (pic_labels s) = 3%nat ->
  location_edit s = download_path s ->
  well_formed (load_wallpapers api s).2.
Proof.
  intros Hp Hlen Hloc. unfold well_formed.
  rewrite (load_wallpapers_length api s).
  rewrite (load_wallpapers_frame current_page api) by blind.
  rewrite (load_wallpapers_frame location_edit api) by blind.
  rewrite (load_wallpapers_frame download_path api) by blind.
  rewrite load_wallpapers_page_label. auto.
Qed.

Lemma change_page_well_formed (n : Z) (s : machine) :
  well_formed s -> well_formed (change_page n s).2.
Proof.
  intros (Hp & Hlen & Hloc & Hlabel).
  destruct (decide (0 <= n /\ (len (wallpaper_data s) = 0 \/
                               n * 3 < len (wallpaper_data s)))) as [Hacc|Hno].
  - rewrite (change_page_accepted n s Hacc).
    apply update_ui_well_formed; fields; [apply Hacc|exact Hlen|exact Hloc].
  - destruct (change_page_rejected n s Hno) as [text ->].
    unfold well_formed. fields. auto.
Qed.

Lemma handle_well_formed (ev : event) (s : machine) :
  well_formed s -> enabled s ev -> well_formed (handle ev s).2.
Proof.
  intros Hwf Hen. pose proof Hwf as (Hp & Hlen & Hloc & Hlabel).
  destruct ev; unfold handle.
  - unfold sort_changed. run.
    apply load_wallpapers_well_formed; fields; [lia|exact Hlen|exact Hloc].
  - apply change_page_well_formed, Hwf.
  - rewrite run_bind, run_gets. cbv beta iota zeta.
    apply change_page_well_formed, Hwf.
  - rewrite run_bind, run_gets. cbv beta iota zeta.
    apply change_page_well_formed, Hwf.
  - unfold choose_download_path.
    destruct (negb (String.eqb new_path "")); run; unfold well_formed; fields;
      auto.
  - unfold well_formed.
    rewrite !(start_download_frame _ E) by reflexivity. exact Hwf.
  - simpl in Hen. rewrite image_loaded_run by lia. unfold well_formed. fields.
    repeat split; try assumption.
    destruct (index <? len (pic_labels s)); [|exact Hlen].
    rewrite length_insert. exact Hlen.
  - simpl in Hen. rewrite image_error_run by lia. unfold well_formed. fields.
    repeat split; try assumption.
    destruct (index <? len (pic_labels s)); [|exact Hlen].
    rewrite length_insert. exact Hlen.
  - rewrite run_modify. exact Hwf.
Qed.

Lemma reachable_well_formed (s : machine) : reachable s -> well_formed s.
Proof.
  induction 1 as [home fs api|s ev Hs IH Hen].
  - apply load_wallpapers_well_formed; simpl; [lia|reflexivity|reflexivity].
  - apply handle_well_formed; assumption.
Qed.

(** X5. In every state a session reaches, the page index is not negative,
    there are three preview labels, the page label shows the page index plus
    one, and the location field shows the directory downloads go to. *)
Theorem session_stays_well_formed (s : machine) :
  reachable s ->
  0 <= current_page s /\
  length (pic_labels s) = 3%nat /\
  page_label s = "第 " +:+ pretty (current_page s + 1) +:+ " 页" /\
  location_edit s = download_path s.
Proof.
  intros Hs. destruct (reachable_well_formed s Hs) as (Hp & Hlen & Hloc & Hlabel).
  auto.
Qed.

Lemma session_stays_well_formed_witness :
  let s := (handle (ChooseLocation "/tmp/w")
              (handle ClickNextPage sample_machine).2).2 in
  page_label s = "第 2 页" /\ location_edit s = "/tmp/w".
Proof.
  intros s.
  assert (reachable s) as Hs.
  { apply reachable_step; [|exact I].
    apply reachable_step; [apply reachable_init | exact I]. }
  destruct (session_stays_well_formed s Hs) as (_ & _ & Hlabel & Hloc).
  split.
  - rewrite Hlabel. vm_compute. reflexivity.
  - rewrite Hloc. vm_compute. reflexivity.
Defined.




(** ** The page buttons *)

Lemma handle_prev (s : machine) :
  handle ClickPrevPage s = change_page (current_page s - 1) s.
Proof. reflexivity. Qed.

Lemma handle_next (s : machine) :
  handle ClickNextPage s = change_page (current_page s + 1) s.
Proof. reflexivity. Qed.

(** X7. The "first page" button is never refused: in any state it sets the
    page index to 0 and shows no box.  "Previous" on page 0 changes nothing
    and warns that this is the first page; "next" on the last page of a
    listing that is not empty changes nothing and warns that there are no
    more wallpapers. *)
Theorem page_buttons_at_the_ends (s : machine) :
  (handle ClickFirstPage s = update_ui false (set_current_page 0 s) /\
   current_page (handle ClickFirstPage s).2 = 0 /\
   dialogs (handle ClickFirstPage s).2 = dialogs s) /\
  (current_page s <= 0 ->
   handle ClickPrevPage s =
   (Ok tt, set_dialogs (dialogs s ++ [Dialog Warning "提示" "已经是第一页了！"]) s)) /\
  (0 <= current_page s -> wallpaper_data s <> [] ->
   len (wallpaper_data s) <= (current_page s + 1) * 3 ->
   handle ClickNextPage s =
   (Ok tt, set_dialogs (dialogs s ++ [Dialog Warning "提示" "没有更多壁纸了！"]) s)).
Proof.
  split; [|split].
  - assert (handle ClickFirstPage s = update_ui false (set_current_page 0 s))
      as Heq.
    { unfold handle. apply change_page_accepted.
      pose proof (len_nonneg (wallpaper_data s)). lia. }
    rewrite Heq. split; [reflexivity|].
    rewrite !(update_ui_frame _ false) by blind. split; reflexivity.
  - intros Hp. rewrite handle_prev. unfold change_page, message_box.
    destruct (current_page s - 1 <? 0) eqn:Hneg; [|lia].
    rewrite run_modify. reflexivity.
  - intros Hp Hd Hlast. rewrite handle_next. unfold change_page, message_box.
    destruct (current_page s + 1 <? 0) eqn:Hneg; [lia|]. run.
    assert (((current_page s + 1) * 3 >=? len (wallpaper_data s)) &&
            (len (wallpaper_data s) >? 0) = true) as ->.
    { apply page_full_iff. split; [exact Hlast|].
      destruct (wallpaper_data s); [congruence|]. unfold len. simpl. lia. }
    rewrite run_modify. reflexivity.
Qed.

Lemma page_buttons_at_the_ends_witness :
  dialogs (handle ClickPrevPage sample_machine).2 =
    [Dialog Warning "提示" "已经是第一页了！"] /\
  dialogs (handle ClickNextPage (handle ClickNextPage sample_machine).2).2 =
    [Dialog Warning "提示" "没有更多壁纸了！"].
Proof.
  split.
  - destruct (page_buttons_at_the_ends sample_machine) as (_ & Hprev & _).
    rewrite Hprev by (vm_compute; discriminate). reflexivity.
  - destruct (page_buttons_at_the_ends (handle ClickNextPage sample_machine).2)
      as (_ & _ & Hnext).
    rewrite Hnext; [reflexivity| | |]; vm_compute; discriminate.
Defined.

(** X8. "Next" followed by "previous" comes back: from a page p >= 0 whose
    window start lies in the listing (or on an empty listing), if "next" is
    accepted then "previous" is accepted too, the page index is p again, no
    box was shown, the listing is the one before, and the three slots show
    what [update_ui] shows for page p. *)
Theorem next_then_previous (s : machine) :
  0 <= current_page s -> length (pic_labels s) = 3%nat ->
  wallpaper_data s = [] \/ (current_page s + 1) * 3 < len (wallpaper_data s) ->
  let s1 := (handle ClickNextPage s).2 in
  let s2 := (handle ClickPrevPage s1).2 in
  current_page s1 = current_page s + 1 /\
  current_page s2 = current_page s /\
  wallpaper_data s2 = wallpaper_data s /\
  dialogs s2 = dialogs s /\
  pic_labels s2 = pic_labels (update_ui false s).2.
Proof.
  intros Hp Hlen Hnext s1 s2.
  assert (handle ClickNextPage s =
          update_ui false (set_current_page (current_page s + 1) s)) as H1.
  { rewrite handle_next. apply change_page_accepted.
    destruct Hnext as [->|Hlt]; [unfold len; simpl; lia|lia]. }
  assert (current_page s1 = current_page s + 1) as Hp1.
  { unfold s1. rewrite H1.
    rewrite (update_ui_frame current_page false) by blind. reflexivity. }
  assert (wallpaper_data s1 = wallpaper_data s) as Hd1.
  { unfold s1. rewrite H1.
    rewrite (update_ui_frame wallpaper_data false) by blind. reflexivity. }
  assert (dialogs s1 = dialogs s) as Hg1.
  { unfold s1. rewrite H1.
    rewrite (update_ui_frame dialogs false) by blind. reflexivity. }
  assert (length (pic_labels s1) = 3%nat) as Hlen1.
  { unfold s1. rewrite H1. rewrite (update_ui_length false). exact Hlen. }
  assert (handle ClickPrevPage s1 =
          update_ui false (set_current_page (current_page s) s1)) as H2.
  { rewrite handle_prev, Hp1.
    replace (current_page s + 1 - 1) with (current_page s) by lia.
    apply change_page_accepted. rewrite Hd1.
    destruct Hnext as [->|Hlt]; [unfold len; simpl; lia|lia]. }
  split; [exact Hp1|]. unfold s2. rewrite H2.
  rewrite !(update_ui_frame _ false) by blind. fields.
  split; [reflexivity|]. split; [exact Hd1|]. split; [exact Hg1|].
  destruct (wallpaper_data s) as [|w d] eqn:Hd.
  - rewrite !update_ui_cleared by (right; fields; congruence). fields.
    destruct (pic_labels s) as [|a [|b [|c [|? ?]]]]; try discriminate Hlen.
    destruct (pic_labels s1) as [|a1 [|b1 [|c1 [|? ?]]]];
      try discriminate Hlen1.
    reflexivity.
  - destruct (update_ui_shows s) as (_ & -> & _); [assumption..|congruence|].
    destruct (update_ui_shows (set_current_page (current_page s) s1))
      as (_ & -> & _); fields; [assumption..|congruence|].
    unfold slot_pic.
    rewrite !(slot_record_ext s (set_current_page (current_page s) s1))
      by (fields; congruence).
    reflexivity.
Qed.

Lemma next_then_previous_witness :
  current_page
    (handle ClickPrevPage (handle ClickNextPage sample_machine).2).2 = 0 /\
  pic_labels
    (handle ClickPrevPage (handle ClickNextPage sample_machine).2).2 =
  pic_labels sample_machine.
Proof.
  assert (0 <= current_page sample_machine) as Hp by (vm_compute; discriminate).
  assert (length (pic_labels sample_machine) = 3%nat) as Hlen
    by (vm_compute; reflexivity).
  destruct (next_then_previous sample_machine Hp Hlen)
    as (_ & Hpage & _ & _ & Hpics).
  { right. vm_compute. reflexivity. }
  split; [rewrite Hpage; vm_compute; reflexivity|].
  rewrite Hpics. vm_compute. reflexivity.
Defined.

(** ** More on downloading *)

Lemma for_fold_invariant {A C} (R : machine -> Prop) (xs : list A)
    (body : A -> C -> M C) (acc : C) (s : machine) :
  R s ->
  (forall x a s1, x ∈ xs -> R s1 -> R (body x a s1).2) ->
  R (for_fold xs body acc s).2.
Proof.
  revert acc s. induction xs as [|x xs IH]; intros acc s Hs Hbody; simpl.
  - exact Hs.
  - rewrite run_bind.
    pose proof (Hbody x acc s (list_elem_of_here x xs) Hs) as Hx.
    destruct (body x acc s) as [[a|e] s1]; simpl in Hx; [|exact Hx].
    apply IH; [exact Hx|].
    intros y b s2 Hy. apply Hbody. apply list_elem_of_further, Hy.
Qed.

(** What one turn of the download loop can do to the state: nothing, print
    one line, or write, in full or in part, the file of the record at its
    index. *)
Lemma download_one_cases (E : download_env) (start i n : Z) (s : machine) :
  0 <= start + i ->
  (download_one E start i n s).2 = s \/
  (exists line, (download_one E start i n s).2 = set_stdout (stdout s ++ [line]) s) \/
  (exists w bytes,
     wallpaper_data s !! Z.to_nat (start + i) = Some w /\
     (download_one E start i n s).2 =
       set_files (<[realpath E (download_target s w) := bytes]> (files s)) s).
Proof.
  intros Hi.
  destruct (Z.lt_ge_cases (start + i) (len (wallpaper_data s))) as [Hlt|Hge].
  - destruct (lookup_lt_is_Some_2 (wallpaper_data s) (Z.to_nat (start + i)))
      as [w Hw]; [unfold len in Hlt; lia|].
    destruct (py_truthy (dict_get w "url") && py_truthy (dict_get w "id"))
      eqn:Hyes.
    + destruct (image_get E i (py_str (dict_get w "url"))) as [e|content] eqn:Hget.
      * rewrite (download_one_fetch_error E start i n s w Hi Hw e Hyes Hget).
        right. left. eexists. reflexivity.
      * destruct (open_wb E i (download_target s w)) as [|written|] eqn:Hopen.
        -- rewrite (download_one_write_error E start i n s w Hi Hw content Hyes
                      Hget Hopen).
           left. reflexivity.
        -- rewrite (download_one_write_partial E start i n s w Hi Hw content
                      written Hyes Hget Hopen).
           right. right. exists w, (take written content).
           split; [exact Hw|reflexivity].
        -- rewrite (download_one_written E start i n s w Hi Hw content Hyes
                      Hget Hopen).
           right. right. exists w, content. split; [exact Hw|reflexivity].
    + rewrite (download_one_skip E start i n s w Hi Hw Hyes). left. reflexivity.
  - rewrite (download_one_past_end E start i n s Hge). left. reflexivity.
Qed.

Lemma range3_bounds (i : Z) : i ∈ range3 -> 0 <= i < 3.
Proof.
  unfold range3. rewrite !elem_of_cons, elem_of_nil. lia.
Qed.

Lemma slot_record_in_window (s : machine) (i : Z) (w : gmap string jval) :
  i ∈ range3 -> slot_record s i = Some w -> w ∈ current_window s.
Proof.
  intros Hi Hw. unfold current_window. apply list_elem_of_omap.
  exists i. split; assumption.
Qed.

(** X9. [start_download] writes nothing but the files of the records of the
    current window and removes nothing: however the requests and the writes
    go, and whether it returns or raises, a file that is not the one the
    name of a window record stands for holds afterwards what it held before,
    and every file that existed still exists.  The page index, the listing
    and the download directory are as before. *)
Theorem start_download_writes_only_targets (E : download_env) (s : machine) :
  0 <= current_page s ->
  let s' := (start_download E s).2 in
  (forall g,
     (forall w, w ∈ current_window s -> g <> realpath E (download_target s w)) ->
     files s' !! g = files s !! g) /\
  (forall g, is_Some (files s !! g) -> is_Some (files s' !! g)) /\
  current_page s' = current_page s /\
  wallpaper_data s' = wallpaper_data s /\
  download_path s' = download_path s /\
  pic_labels s' = pic_labels s.
Proof.
  intros Hp s'. subst s'.
  set (R := fun s1 : machine =>
    current_page s1 = current_page s /\ wallpaper_data s1 = wallpaper_data s /\
    download_path s1 = download_path s /\
    (forall g,
       (forall w, w ∈ current_window s -> g <> realpath E (download_target s w)) ->
       files s1 !! g = files s !! g) /\
    (forall g, is_Some (files s !! g) -> is_Some (files s1 !! g))).
  assert (R (start_download E s).2) as HR.
  { destruct (decide (wallpaper_data s = [])) as [Hd|Hd].
    - unfold start_download, message_box. run.
      assert (is_empty (wallpaper_data s) = true) as ->
        by (apply is_empty_true; exact Hd).
      run. unfold R. fields. auto.
    - rewrite start_download_reports by exact Hd.
      assert (R (for_fold range3 (download_one E (current_page s * 3)) 0 s).2)
        as Hloop.
      { apply for_fold_invariant.
        - unfold R. auto.
        - intros i a s1 Hi (Hp1 & Hd1 & Hq1 & Hkeep & Hstay).
          pose proof (range3_bounds i Hi) as Hi3.
          destruct (download_one_cases E (current_page s * 3) i a s1)
            as [->|[[line ->]|(w & bytes & Hw & ->)]]; [lia|..].
          + unfold R. auto.
          + unfold R. fields. auto.
          + unfold R. fields. repeat split; try assumption.
            * intros g Hg. rewrite lookup_insert_ne; [apply Hkeep, Hg|].
              intros Heq. apply (Hg w).
              -- apply (slot_record_in_window s i); [exact Hi|].
                 rewrite slot_record_lookup by lia.
                 rewrite <- Hd1. exact Hw.
              -- unfold download_target in *. rewrite <- Hq1. congruence.
            * intros g Hg.
              destruct (decide (realpath E (download_target s1 w) = g))
                as [->|Hne].
              -- rewrite lookup_insert_eq. eauto.
              -- rewrite lookup_insert_ne by exact Hne. apply Hstay, Hg. }
      destruct (for_fold range3 (download_one E (current_page s * 3)) 0 s)
        as [[n|e] s1]; simpl in Hloop |- *; [|exact Hloop].
      unfold R in *. fields. exact Hloop. }
  destruct HR as (H1 & H2 & H3 & H4 & H5).
  repeat split; try assumption.
  apply start_download_frame; reflexivity.
Qed.

Lemma start_download_writes_only_targets_witness :
  let E := DownloadEnv images_up
             (fun i _ => if i =? 1 then WriteError 1 else Written) same_name in
  let s := set_files {["/home/u/notes.txt" := [x00]%byte]} sample_machine in
  files (start_download E s).2 !! "/home/u/notes.txt" = Some [x00]%byte.
Proof.
  intros E s.
  assert (0 <= current_page s) as Hp by (vm_compute; discriminate).
  destruct (start_download_writes_only_targets E s Hp) as (Hkeep & _).
  rewrite Hkeep; [reflexivity|].
  intros w Hw.
  assert (current_window s =
          [sample_record "1"; sample_record "2"; sample_record "3"]) as Hwin
    by (vm_compute; reflexivity).
  rewrite Hwin in Hw.
  apply elem_of_cons in Hw as [->|Hw]; [vm_compute; discriminate|].
  apply elem_of_cons in Hw as [->|Hw]; [vm_compute; discriminate|].
  apply elem_of_cons in Hw as [->|Hw]; [vm_compute; discriminate|].
  apply elem_of_nil in Hw. contradiction.
Defined.

Lemma set_stdout_nil (s : machine) : set_stdout (stdout s ++ []) s = s.
Proof. destruct s; simpl. rewrite app_nil_r. reflexivity. Qed.

Lemma download_one_offline (err : Z -> string -> string)
    (open : Z -> string -> write_outcome) (real : string -> string)
    (s0 s1 : machine) (i n : Z) :
  current_page s1 = current_page s0 -> wallpaper_data s1 = wallpaper_data s0 ->
  0 <= current_page s0 -> 0 <= i ->
  download_one (DownloadEnv (fun i u => ImageError (err i u)) open real)
    (current_page s0 * 3) i n s1 =
  (Ok n, set_stdout (stdout s1 ++ failure_line err s0 i) s1).
Proof.
  intros Hp Hd H0 Hi. unfold failure_line.
  rewrite slot_record_lookup by lia. rewrite <- Hd.
  destruct (Z.lt_ge_cases (current_page s0 * 3 + i) (len (wallpaper_data s1)))
    as [Hlt|Hge].
  - destruct (lookup_lt_is_Some_2 (wallpaper_data s1)
                (Z.to_nat (current_page s0 * 3 + i))) as [w Hw];
      [unfold len in Hlt; lia|].
    rewrite Hw.
    destruct (py_truthy (dict_get w "url") && py_truthy (dict_get w "id"))
      eqn:Hyes.
    + apply (download_one_fetch_error _ _ i n s1 w); [lia|exact Hw|exact Hyes|].
      reflexivity.
    + rewrite set_stdout_nil.
      apply (download_one_skip _ _ i n s1 w); [lia|exact Hw|exact Hyes].
  - rewrite (proj2 (lookup_ge_None _ _)) by (unfold len in Hge; lia).
    rewrite set_stdout_nil. apply download_one_past_end. exact Hge.
Qed.

(** X10. When no image request succeeds, [start_download] on a listing that
    is not empty returns with the "download failed" box, has printed one line
    for each record of the window that has an id and a URL, in window order,
    and has touched no file, whether or not the files could be opened. *)
Theorem start_download_offline (err : Z -> string -> string)
    (open : Z -> string -> write_outcome) (real : string -> string)
    (s : machine) :
  0 <= current_page s -> wallpaper_data s <> [] ->
  start_download (DownloadEnv (fun i u => ImageError (err i u)) open real) s =
  (Ok tt,
   set_dialogs
     (dialogs s ++
      [Dialog Warning "下载失败" "没有壁纸被成功下载，请检查网络连接或下载路径。"])
     (set_stdout
        (stdout s ++ failure_line err s 0 ++ failure_line err s 1 ++
         failure_line err s 2) s)).
Proof.
  intros Hp Hd. rewrite start_download_reports by exact Hd.
  unfold range3. simpl for_fold. run.
  rewrite (download_one_offline err open real s s 0 0) by (auto; lia). run.
  match goal with |- context [download_one _ _ 1 _ ?s1] =>
    rewrite (download_one_offline err open real s s1 1 0) by (auto; lia)
  end. run.
  match goal with |- context [download_one _ _ 2 _ ?s2] =>
    rewrite (download_one_offline err open real s s2 2 0) by (auto; lia)
  end. run.
  rewrite <- !app_assoc. reflexivity.
Qed.

Lemma start_download_offline_witness :
  let s := (handle ClickNextPage sample_machine).2 in
  let r := start_download (DownloadEnv (fun _ _ => ImageError "timed out")
                             (fun _ _ => OpenError) same_name) s in
  r.1 = Ok tt /\
  stdout r.2 = ["下载 4 失败: timed out"; "下载 5 失败: timed out"] /\
  files r.2 = files s.
Proof.
  intros s r. subst r.
  rewrite (start_download_offline (fun _ _ => "timed out")
             (fun _ _ => OpenError) same_name s).
  - repeat split; vm_compute; reflexivity.
  - vm_compute. discriminate.
  - vm_compute. discriminate.
Defined.

(** X11. On a last page that holds a single record, one that has an id and
    a URL, is fetched and is written in full, [start_download] reports a
    count of 1 and the file its name stands for holds, byte for byte, the
    body of the response; every other file, that is every file this name
    does not stand for, is as before. *)
Theorem start_download_last_record (E : download_env) (s : machine)
    (w : gmap string jval) (content : list byte) :
  0 <= current_page s ->
  downloadable E s 0 w content ->
  len (wallpaper_data s) <= current_page s * 3 + 1 ->
  let file := realpath E (download_target s w) in
  start_download E s =
    (Ok tt,
     set_dialogs (dialogs s ++ [download_report 1 (download_path s)])
       (set_files (<[file := content]> (files s)) s)) /\
  files (start_download E s).2 !! file = Some content /\
  (forall g, g <> file -> files (start_download E s).2 !! g = files s !! g) /\
  dlg_icon (download_report 1 (download_path s)) = Information.
Proof.
  intros Hp (Hw & Hu & Hi & Hg & Ho) Hlast file. subst file.
  assert (start_download E s =
          (Ok tt,
           set_dialogs (dialogs s ++ [download_report 1 (download_path s)])
             (set_files
                (<[realpath E (download_target s w) := content]> (files s)) s)))
    as Hrun.
  { rewrite start_download_reports by (eapply slot_record_nonempty; eauto).
    unfold range3. simpl for_fold. run.
    apply slot_record_found in Hw; try lia.
    rewrite (download_one_written E _ 0 0 s w) with (content := content);
      try assumption; try lia; [|rewrite Hu, Hi; reflexivity].
    run.
    rewrite download_one_past_end by (fields; lia). run.
    rewrite download_one_past_end by (fields; lia). run.
    reflexivity. }
  rewrite Hrun. fields. split; [reflexivity|]. split; [|split].
  - apply lookup_insert_eq.
  - intros g Hne. apply lookup_insert_ne. congruence.
  - reflexivity.
Qed.

Lemma start_download_last_record_witness :
  let listing : list (gmap string jval) :=
    [<["id" := JStr "42"]> (<["url" := JStr "http://x/42.jpg"]> ∅)] in
  let s := set_download_path "D"
             (load_wallpapers (sample_api listing) (constructed "/home/u" ∅)).2 in
  let E := DownloadEnv images_up disk_ok same_name in
  files (start_download E s).2 !! "D/42.jpg" = Some [x01; x02]%byte.
Proof.
  intros listing s E.
  assert (0 <= current_page s) as Hp by (vm_compute; discriminate).
  assert (downloadable E s 0
            (<["id" := JStr "42"]> (<["url" := JStr "http://x/42.jpg"]> ∅))
            [x01; x02]%byte) as Hdl
    by (repeat split; vm_compute; reflexivity).
  destruct (start_download_last_record E s _ _ Hp Hdl) as (_ & Hfile & _).
  - vm_compute. discriminate.
  - exact Hfile.
Defined.

(** ** File names *)

Lemma startswith_sep_append (a b : string) :
  startswith_sep a = true -> startswith_sep (a +:+ b) = true.
Proof.
  destruct a as [|c a]; [discriminate|]. simpl.
  destruct c as [[] [] [] [] [] [] [] []]; try discriminate. reflexivity.
Qed.

(** X12. The file name comes from [os.path.join]: an id that starts with a
    slash makes the download directory drop out of the name, so the file of
    such a record is written at [id + ".jpg"], outside the chosen directory;
    a directory that ends with a slash gets no second one; and an empty
    directory gives the bare name. *)
Theorem download_target_follows_join (E : download_env) (s : machine)
    (w : gmap string jval) :
  (startswith_sep (py_str (dict_get w "id")) = true ->
   download_target s w = py_str (dict_get w "id") +:+ ".jpg" /\
   forall i n content,
     0 <= current_page s * 3 + i ->
     wallpaper_data s !! Z.to_nat (current_page s * 3 + i) = Some w ->
     py_truthy (dict_get w "url") = true ->
     image_get E i (py_str (dict_get w "url")) = ImageContent content ->
     open_wb E i (py_str (dict_get w "id") +:+ ".jpg") = Written ->
     download_one E (current_page s * 3) i n s =
     (Ok (n + 1),
      set_files
        (<[realpath E (py_str (dict_get w "id") +:+ ".jpg") := content]>
           (files s)) s)) /\
  (startswith_sep (py_str (dict_get w "id") +:+ ".jpg") = false ->
   download_path s <> "" -> endswith_sep (download_path s) = true ->
   download_target s w = download_path s +:+ py_str (dict_get w "id") +:+ ".jpg") /\
  (download_path s = "" ->
   download_target s w = py_str (dict_get w "id") +:+ ".jpg").
Proof.
  split; [|split].
  - intros Hslash.
    assert (download_target s w = py_str (dict_get w "id") +:+ ".jpg") as Ht.
    { unfold download_target, os_path_join.
      rewrite (startswith_sep_append _ ".jpg" Hslash). reflexivity. }
    split; [exact Ht|].
    intros i n content Hi Hw Hurl Hget Hopen. rewrite <- Ht in *.
    apply (download_one_written E _ i n s w Hi Hw content); try assumption.
    rewrite Hurl. simpl.
    destruct (dict_get w "id") as [|[]|z|id]; try discriminate Hslash.
    + simpl in Hslash. unfold py_truthy.
      destruct (z =? 0) eqn:Hz; [|reflexivity].
      apply Z.eqb_eq in Hz. subst z. discriminate Hslash.
    + destruct id; [discriminate Hslash|reflexivity].
  - intros Hno Hne Hend. unfold download_target, os_path_join.
    rewrite Hno, Hend. apply String.eqb_neq in Hne. rewrite Hne. reflexivity.
  - intros Hempty. unfold download_target, os_path_join. rewrite Hempty.
    simpl. rewrite orb_true_r. reflexivity.
Qed.

Lemma download_target_follows_join_witness :
  let w : gmap string jval :=
    <["id" := JStr "/etc/cron.d/x"]> (<["url" := JStr "http://x/1.jpg"]> ∅) in
  download_target sample_machine w = "/etc/cron.d/x.jpg".
Proof.
  intros w.
  destruct (download_target_follows_join (DownloadEnv images_up disk_ok same_name)
              sample_machine w) as (Hesc & _).
  destruct Hesc as (-> & _); [reflexivity|]. vm_compute. reflexivity.
Defined.

(** ** More on fetching the listing *)

Lemma load_wallpapers_failed_dialogs (api : string -> api_outcome) (s : machine)
    (title text : string) :
  load_wallpapers api s =
    update_ui true
      (set_wallpaper_data []
         (set_dialogs (dialogs s ++ [Dialog Critical title text]) s)) ->
  dialogs (load_wallpapers api s).2 = dialogs s ++ [Dialog Critical title text].
Proof.
  intros ->. rewrite (update_ui_frame dialogs true) by blind. reflexivity.
Qed.

(** X13. What the error box says.  A transport error is reported as a
    network error with the text of the exception.  A body that is not JSON is
    reported as a data error when the exception is the standard library's,
    but as a network error when it is the one [requests] raises, which is
    also a [RequestException] and meets that clause first.  A body that
    reports a failure is shown with the server's message, or with "unknown
    error" when it has none. *)
Theorem load_wallpapers_error_box (api : string -> api_outcome) (s : machine) :
  let url := API_URL_format (sort_combo s) in
  let box := fun title text =>
    dialogs (load_wallpapers api s).2 = dialogs s ++ [Dialog Critical title text] in
  (forall e, api url = ApiTransportError e ->
     box "网络错误" ("无法连接到壁纸API: " +:+ e)) /\
  (forall e, api url = ApiInvalidJson true e ->
     box "网络错误" ("无法连接到壁纸API: " +:+ e)) /\
  (forall e, api url = ApiInvalidJson false e ->
     box "数据错误" "API返回了无效的JSON数据。") /\
  (forall body, api url = ApiJson body -> fetch_failed (ApiJson body) = true ->
     box "错误" ("API返回错误: " +:+ py_str (default (JStr "未知错误") (body_msg body))) /\
     (forall m, body_msg body = Some (JStr m) -> box "错误" ("API返回错误: " +:+ m)) /\
     (body_msg body = None -> box "错误" "API返回错误: 未知错误")).
Proof.
  intros url box. subst url box. cbv beta.
  assert (forall title text,
    load_wallpapers api s =
      update_ui true
        (set_wallpaper_data []
           (set_dialogs (dialogs s ++ [Dialog Critical title text]) s)) ->
    dialogs (load_wallpapers api s).2 = dialogs s ++ [Dialog Critical title text])
    as Hbox by (intros; apply load_wallpapers_failed_dialogs; assumption).
  split; [|split; [|split]].
  - intros e Hapi. apply Hbox.
    unfold load_wallpapers, requests_get_json, message_box. run.
    rewrite run_try_except. run. rewrite Hapi. run. reflexivity.
  - intros e Hapi. apply Hbox.
    unfold load_wallpapers, requests_get_json, message_box. run.
    rewrite run_try_except. run. rewrite Hapi. run. reflexivity.
  - intros e Hapi. apply Hbox.
    unfold load_wallpapers, requests_get_json, message_box. run.
    rewrite run_try_except. run. rewrite Hapi. run. reflexivity.
  - intros body Hapi Hfail.
    assert (dialogs (load_wallpapers api s).2 =
            dialogs s ++
            [Dialog Critical "错误"
               ("API返回错误: " +:+ py_str (default (JStr "未知错误") (body_msg body)))])
      as Hmsg.
    { apply Hbox.
      unfold load_wallpapers, requests_get_json, message_box. run.
      rewrite run_try_except. run. rewrite Hapi. run.
      simpl in Hfail. apply negb_true_iff in Hfail. rewrite Hfail. run.
      rewrite update_ui_cleared by (left; reflexivity). reflexivity. }
    split; [exact Hmsg|]. split.
    + intros m Hm. rewrite Hmsg, Hm. reflexivity.
    + intros Hm. rewrite Hmsg, Hm. reflexivity.
Qed.

Lemma load_wallpapers_error_box_witness :
  dialogs
    (load_wallpapers
       (fun _ => ApiJson (ApiBody (Some (JInt 1)) (Some (JStr "busy")) (Some [])))
       (constructed "/home/u" ∅)).2 =
  [Dialog Critical "错误" "API返回错误: busy"].
Proof.
  destruct (load_wallpapers_error_box
              (fun _ => ApiJson (ApiBody (Some (JInt 1)) (Some (JStr "busy")) (Some [])))
              (constructed "/home/u" ∅)) as (_ & _ & _ & Hbody).
  destruct (Hbody (ApiBody (Some (JInt 1)) (Some (JStr "busy")) (Some [])))
    as (_ & Hmsg & _); [reflexivity..|].
  rewrite (Hmsg "busy") by reflexivity. reflexivity.
Defined.

(** X14. A response that succeeds with an empty [data] array is taken
    without a word: the handler returns, no box is shown, the listing is
    empty, every slot shows "no data" and no thread is started.  From there
    the download button only warns that there is nothing to download, for
    any network and disk, and changes nothing else. *)
Theorem empty_listing_is_silent (api : string -> api_outcome) (s : machine)
    (body : api_body) :
  api (API_URL_format (sort_combo s)) = ApiJson body ->
  py_eq_zero (default JNull (body_code body)) = true ->
  body_data body = Some [] ->
  let s' := (load_wallpapers api s).2 in
  (load_wallpapers api s).1 = Ok tt /\
  dialogs s' = dialogs s /\
  wallpaper_data s' = [] /\
  pic_labels s' = (fun _ => PicText "无数据") <$> pic_labels s /\
  image_threads s' = image_threads s /\
  forall E,
    start_download E s' =
    (Ok tt,
     set_dialogs
       (dialogs s' ++ [Dialog Warning "警告" "当前没有可下载的壁纸数据。"]) s').
Proof.
  intros Hapi Hcode Hdata s'. subst s'.
  rewrite (load_wallpapers_succeeded api s body [] Hapi Hcode Hdata).
  rewrite update_ui_cleared by (right; reflexivity). fields.
  split; [reflexivity|]. split; [reflexivity|]. split; [reflexivity|].
  split; [reflexivity|]. split; [reflexivity|].
  intros E. unfold start_download, message_box. run. reflexivity.
Qed.

Lemma empty_listing_is_silent_witness :
  let s' := (load_wallpapers (sample_api []) sample_machine).2 in
  dialogs s' = [] /\
  dialogs (start_download (DownloadEnv images_up disk_ok same_name) s').2 =
    [Dialog Warning "警告" "当前没有可下载的壁纸数据。"].
Proof.
  intros s'.
  destruct (empty_listing_is_silent (sample_api []) sample_machine
              (ApiBody (Some (JInt 0)) None (Some [])))
    as (_ & Hdlg & _ & _ & _ & Hdown); [reflexivity..|].
  fold s' in Hdlg, Hdown. split; [rewrite Hdlg; reflexivity|].
  rewrite Hdown. fields. rewrite Hdlg. reflexivity.
Defined.

(** X15. Which [code] counts as success.  For a body with a [data] array
    that is not empty, the array becomes the listing exactly when [code] is
    the number 0 or the boolean [false], which Python's [== 0] also accepts;
    a missing [code], [null], a string such as "0" or any other number sends
    the body down the error path and the listing is empty. *)
Theorem load_wallpapers_accepts_code (api : string -> api_outcome)
    (s : machine) (body : api_body) (listing : list (gmap string jval)) :
  api (API_URL_format (sort_combo s)) = ApiJson body ->
  body_data body = Some listing -> listing <> [] ->
  (wallpaper_data (load_wallpapers api s).2 = listing <->
   body_code body = Some (JInt 0) \/ body_code body = Some (JBool false)) /\
  (wallpaper_data (load_wallpapers api s).2 = [] <->
   ~ (body_code body = Some (JInt 0) \/ body_code body = Some (JBool false))).
Proof.
  intros Hapi Hdata Hne.
  assert (py_eq_zero (default JNull (body_code body)) = true <->
          body_code body = Some (JInt 0) \/ body_code body = Some (JBool false))
    as Hcode.
  { destruct (body_code body) as [[|[]|z|c]|]; simpl; split;
      try discriminate; try (intros [H|H]; discriminate H); auto.
    - intros Hz. apply Z.eqb_eq in Hz. subst z. auto.
    - intros [[= ->]|H]; [reflexivity|discriminate H]. }
  destruct (py_eq_zero (default JNull (body_code body))) eqn:Hz.
  - assert (wallpaper_data (load_wallpapers api s).2 = listing) as Hstored.
    { rewrite (load_wallpapers_succeeded api s body listing Hapi Hz Hdata).
      rewrite (update_ui_frame wallpaper_data false) by blind. reflexivity. }
    rewrite Hstored. split; split.
    + intros _. apply Hcode. reflexivity.
    + reflexivity.
    + intros ->. contradiction.
    + intros Hno. exfalso. apply Hno, Hcode. reflexivity.
  - assert (wallpaper_data (load_wallpapers api s).2 = []) as Hcleared.
    { destruct (load_wallpapers_failed api s) as (title & text & ->).
      - rewrite Hapi. simpl. rewrite Hz. reflexivity.
      - rewrite (update_ui_frame wallpaper_data true) by blind. reflexivity. }
    rewrite Hcleared. split; split.
    + intros <-. contradiction.
    + intros Hyes. apply Hcode in Hyes. discriminate Hyes.
    + intros _ Hyes. apply Hcode in Hyes. discriminate Hyes.
    + reflexivity.
Qed.

Lemma load_wallpapers_accepts_code_witness :
  wallpaper_data
    (load_wallpapers
       (fun _ => ApiJson (ApiBody (Some (JStr "0")) None (Some sample_listing)))
       (constructed "/home/u" ∅)).2 = [].
Proof.
  destruct (load_wallpapers_accepts_code
              (fun _ => ApiJson (ApiBody (Some (JStr "0")) None (Some sample_listing)))
              (constructed "/home/u" ∅)
              (ApiBody (Some (JStr "0")) None (Some sample_listing))
              sample_listing) as (_ & Hempty).
  - reflexivity.
  - reflexivity.
  - vm_compute. discriminate.
  - apply Hempty. intros [H|H]; discriminate H.
Defined.

(** ** What [update_ui] starts and shows *)



(** X17. The info panel shows the first record of the window and the
    selected source.  A key the record has is shown with its value, the way
    an f-string prints it, so a key that is present with the value [null] is
    shown as "None"; only a key that is absent gets the placeholder "N/A". *)
Theorem info_panel_shows_first_record (s : machine) (w : gmap string jval) :
  length (pic_labels s) = 3%nat -> 0 <= current_page s ->
  slot_record s 0 = Some w ->
  let s' := (update_ui false s).2 in
  source_label s' = "来源: " +:+ sort_combo s /\
  (forall v, w !! "id" = Some v -> name_label s' = "名称: " +:+ py_str v) /\
  (forall v, w !! "author" = Some v -> author_label s' = "作者: " +:+ py_str v) /\
  (forall v, w !! "desc" = Some v -> desc_label s' = "描述: " +:+ py_str v) /\
  (w !! "author" = Some JNull -> author_label s' = "作者: None") /\
  (w !! "author" = None -> author_label s' = "作者: N/A").
Proof.
  intros Hlen Hp Hw s'. subst s'.
  destruct (update_ui_info s w Hlen Hp Hw) as (Hname & Hauthor & Hsource & Hdesc).
  rewrite Hname, Hauthor, Hsource, Hdesc. unfold dict_get_or.
  split; [reflexivity|].
  repeat split; intros; repeat match goal with H : _ !! _ = _ |- _ => rewrite H end;
    reflexivity.
Qed.

Lemma info_panel_shows_first_record_witness :
  let w : gmap string jval :=
    <["id" := JInt 7]> (<["author" := JNull]> (<["url" := JStr "u"]> ∅)) in
  let s := (load_wallpapers (sample_api [w]) (constructed "/home/u" ∅)).2 in
  name_label (update_ui false s).2 = "名称: 7" /\
  author_label (update_ui false s).2 = "作者: None".
Proof.
  intros w s.
  destruct (info_panel_shows_first_record s w) as (_ & Hname & _ & _ & Hnull & _).
  - vm_compute. reflexivity.
  - vm_compute. discriminate.
  - vm_compute. reflexivity.
  - split.
    + rewrite (Hname (JInt 7)) by (vm_compute; reflexivity).
      vm_compute. reflexivity.
    + apply Hnull. vm_compute. reflexivity.
Defined.

(** ** Choosing the download directory *)

(** X18. Cancelling the directory picker changes nothing.  A chosen
    directory becomes the download directory and the text of the location
    field, and nothing else changes; the files of later downloads are named
    under it, and the box of a later download that wrote something names
    it. *)
Theorem choose_download_path_redirects (new_path : string) (s : machine) :
  choose_download_path "" s = (Ok tt, s) /\
  (new_path <> "" ->
   let s' := (choose_download_path new_path s).2 in
   (choose_download_path new_path s).1 = Ok tt /\
   download_path s' = new_path /\ location_edit s' = new_path /\
   s' = set_location_edit new_path (set_download_path new_path s) /\
   (forall w,
      download_target s' w =
      os_path_join new_path (py_str (dict_get w "id") +:+ ".jpg")) /\
   (forall E n s1,
      wallpaper_data s' <> [] -> 0 < n ->
      for_fold range3 (download_one E (current_page s' * 3)) 0 s' = (Ok n, s1) ->
      dialogs (start_download E s').2 =
      dialogs s1 ++
      [Dialog Information "下载完成"
         ("成功下载 " +:+ pretty n +:+ " 张壁纸到:" +:+ newline +:+ new_path)])).
Proof.
  split; [reflexivity|].
  intros Hne s'.
  assert (choose_download_path new_path s =
          (Ok tt, set_location_edit new_path (set_download_path new_path s)))
    as Hrun.
  { unfold choose_download_path. apply String.eqb_neq in Hne. rewrite Hne.
    simpl negb. cbv iota. run. reflexivity. }
  subst s'. rewrite Hrun. fields.
  split; [reflexivity|]. split; [reflexivity|]. split; [reflexivity|].
  split; [reflexivity|]. split; [reflexivity|].
  intros E n s1 Hd Hpos Hloop.
  rewrite (start_download_reports E
             (set_location_edit new_path (set_download_path new_path s)) Hd).
  fields. rewrite Hloop. fields.
  assert (download_path s1 = new_path) as Hpath.
  { pose proof (preserves_for_fold download_path range3
                  (download_one E (current_page s * 3)) 0
                  (fun i a => download_one_frame download_path E _ i a
                     (fun _ _ => eq_refl) (fun _ _ => eq_refl))
                  (set_location_edit new_path (set_download_path new_path s)))
      as Hkeep.
    rewrite Hloop in Hkeep. exact Hkeep. }
  unfold download_report. rewrite Hpath.
  destruct (n >? 0) eqn:Hn; [reflexivity|lia].
Qed.

Lemma choose_download_path_redirects_witness :
  let s' := (choose_download_path "/mnt/pics" sample_machine).2 in
  download_target s' (sample_record "3") = "/mnt/pics/3.jpg" /\
  location_edit s' = "/mnt/pics".
Proof.
  intros s'.
  destruct (choose_download_path_redirects "/mnt/pics" sample_machine)
    as (_ & Hset).
  destruct Hset as (_ & _ & Hloc & _ & Htarget & _); [discriminate|].
  split; [|exact Hloc].
  fold s' in Htarget. rewrite Htarget. vm_compute. reflexivity.
Defined.

(** ** A write that breaks off *)

(** X19. When the first record of the window has an id and a URL, its
    request is answered, and the write of its file breaks off after [open]
    succeeded, [start_download] ends with the [OSError]: the file holds the
    part that was written, the other records of the window are not
    attempted, nothing is printed and no box is shown. *)
Theorem start_download_partial_write (E : download_env) (s : machine)
    (w : gmap string jval) (content : list byte) (written : nat) :
  0 <= current_page s ->
  fetched E s 0 w content ->
  open_wb E 0 (download_target s w) = WriteError written ->
  start_download E s =
  (Raise (OSError (download_target s w)),
   set_files
     (<[realpath E (download_target s w) := take written content]> (files s)) s).
Proof.
  intros Hp (Hw & Hu & Hi & Hg) Hopen.
  rewrite start_download_reports by (eapply slot_record_nonempty; eauto).
  unfold range3. simpl for_fold. run.
  apply slot_record_found in Hw; try lia.
  rewrite (download_one_write_partial E _ 0 0 s w) with (content := content)
    (written := written); try assumption; try lia;
    [|rewrite Hu, Hi; reflexivity].
  reflexivity.
Qed.

Lemma start_download_partial_write_witness :
  let E := DownloadEnv images_up
             (fun i _ => if i =? 0 then WriteError 1 else Written) same_name in
  let r := start_download E sample_machine in
  r.1 = Raise (OSError "/home/u/SmartisanOS_Wallpapers/1.jpg") /\
  files r.2 = {["/home/u/SmartisanOS_Wallpapers/1.jpg" := [x01]%byte]} /\
  dialogs r.2 = [].
Proof.
  intros E r. subst r.
  assert (0 <= current_page sample_machine) as Hp by (vm_compute; discriminate).
  assert (fetched E sample_machine 0 (sample_record "1") [x01; x02]%byte) as Hf
    by (repeat split; vm_compute; reflexivity).
  rewrite (start_download_partial_write E sample_machine _ _ 1 Hp Hf)
    by reflexivity.
  repeat split.
Defined.
